(** * knx_log_splitter: a shallow embedding of [knx_log_splitter.py]

    The script reads an XML log of KNX bus telegrams, decodes the
    destination group address and the source physical address out of each
    telegram's [RawData] hex string, splits the telegrams over two output
    documents and re-writes the generated XML text with an aligned comment
    per telegram.

    Python values are embedded as follows.
    - [str] is [string]; a character is a code point below 256, which is
      where every character class the script relies on ([int], [strip],
      [lstrip]) is decided in this file.
    - [int] is [Z]; [&] and [>>] are [Z.land] and [Z.shiftr], which agree
      with Python on negative numbers (two's complement, arithmetic shift).
    - a telegram is a [dict], as the script declares it ([List[dict]]):
      the ordered attribute dictionary [xmltodict] builds, an association
      list from keys to attribute values.
    - a raised exception is a value of [result]; [try_except] is the
      [try ... except Exception] block.
    - the [verbose] flag only adds [print] calls and is left out, as are
      the progress bar and the file system: [insert_comments] is a
      function from the lines read to the lines written. *)

From Stdlib Require Import ZArith List String Ascii Bool Arith Lia.
From Stdlib Require Import DecimalString.
From Stdlib Require DecimalPos DecimalZ.
Import ListNotations.

Local Open Scope list_scope.
Local Open Scope string_scope.

(** ** Exceptions *)

Module Exn.

Inductive exn : Type :=
| ValueError    (* int() on a malformed literal *)
| IndexError.   (* list index out of range *)

Inductive result (A : Type) : Type :=
| Ok (a : A)
| Raise (e : exn).

Arguments Ok {A} a.
Arguments Raise {A} e.

Definition bind {A B : Type} (m : result A) (k : A -> result B) : result B :=
  match m with
  | Ok a => k a
  | Raise e => Raise e
  end.

(** [try: body except Exception: handler]; both exceptions above are
    subclasses of [Exception]. *)
Definition try_except {A : Type} (body : result A) (handler : exn -> result A)
  : result A :=
  match body with
  | Ok a => Ok a
  | Raise e => handler e
  end.

End Exn.
Import Exn.

Notation "x <- m ;; k" := (Exn.bind m (fun x => k))
  (at level 61, m at next level, right associativity).

(** ** The [str] and [int] operations the script calls *)

Module PyStr.

Definition dquote : ascii := "034"%char.
Definition newline : ascii := "010"%char.

Definition len (s : string) : nat := String.length s.

(** [s[a:b]] for [0 <= a <= b]: clamped at the end of [s]. *)
Definition slice (s : string) (a b : nat) : string := substring a (b - a) s.

Definition startswith (s p : string) : bool := prefix p s.

Definition endswith (s suf : string) : bool :=
  (len suf <=? len s)%nat && (substring (len s - len suf) (len suf) s =? suf).

(** [sub in s]. *)
Fixpoint contains (sub s : string) : bool :=
  prefix sub s ||
  match s with
  | EmptyString => false
  | String _ s' => contains sub s'
  end.

(** [' ' * n]. *)
Fixpoint spaces (n : nat) : string :=
  match n with
  | O => EmptyString
  | S k => String " " (spaces k)
  end.

(** [s.split(sep)] for a non-empty [sep]: the occurrences of [sep] are
    found left to right and do not overlap. [skip] counts the characters
    of an occurrence still to pass over, [cur] is the piece being read. *)
Fixpoint split_go (sep : string) (skip : nat) (cur : string) (s : string)
  : list string :=
  match s with
  | EmptyString => [cur]
  | String c s' =>
      match skip with
      | S k => split_go sep k cur s'
      | O =>
          if prefix sep s
          then cur :: split_go sep (len sep - 1) EmptyString s'
          else split_go sep 0 (cur ++ String c EmptyString) s'
      end
  end.

Definition split (s sep : string) : list string := split_go sep 0 EmptyString s.

(** [s.replace(old, new)] for a non-empty [old]. *)
Fixpoint replace_go (old new : string) (skip : nat) (s : string) : string :=
  match s with
  | EmptyString => EmptyString
  | String c s' =>
      match skip with
      | S k => replace_go old new k s'
      | O =>
          if prefix old s
          then new ++ replace_go old new (len old - 1) s'
          else String c (replace_go old new 0 s')
      end
  end.

Definition replace (s old new : string) : string := replace_go old new 0 s.

(** [sep.join(parts)]. *)
Definition join (sep : string) (parts : list string) : string :=
  String.concat sep parts.

Fixpoint lstrip_by (p : ascii -> bool) (s : string) : string :=
  match s with
  | EmptyString => EmptyString
  | String c s' => if p c then lstrip_by p s' else s
  end.

(** Drops the longest suffix of characters satisfying [p]. *)
Fixpoint rstrip_by (p : ascii -> bool) (s : string) : string :=
  match s with
  | EmptyString => EmptyString
  | String c s' =>
      match rstrip_by p s' with
      | EmptyString => if p c then EmptyString else String c EmptyString
      | r => String c r
      end
  end.

Definition strip_by (p : ascii -> bool) (s : string) : string :=
  rstrip_by p (lstrip_by p s).

(** [str.isspace] on a code point below 256. *)
Definition isspace (c : ascii) : bool :=
  let n := nat_of_ascii c in
  ((9 <=? n) && (n <=? 13) || (28 <=? n) && (n <=? 32)
   || (n =? 133) || (n =? 160))%nat.

Definition lstrip (s : string) : string := lstrip_by isspace s.
Definition strip (s : string) : string := strip_by isspace s.

(** [s.strip(chars)] for a one-character [chars]. *)
Definition strip_char (c : ascii) (s : string) : string :=
  strip_by (Ascii.eqb c) s.

(** [f"{n}"] for an [int]. *)
Definition str_of_int (n : Z) : string := NilEmpty.string_of_int (Z.to_int n).

(** *** [int(s, 16)]

    Leading white space, an optional sign, an optional [0x] prefix (after
    which one underscore may stand), hexadecimal digits with single
    underscores between them, trailing white space. The white space
    [int] skips is not [str.isspace]: U+001C..U+001F are not skipped. *)

Definition int_space (c : ascii) : bool :=
  let n := nat_of_ascii c in
  ((9 <=? n) && (n <=? 13) || (n =? 32) || (n =? 133) || (n =? 160))%nat.

Definition hex_digit (c : ascii) : option Z :=
  let n := nat_of_ascii c in
  if ((48 <=? n) && (n <=? 57))%nat then Some (Z.of_nat (n - 48))
  else if ((65 <=? n) && (n <=? 70))%nat then Some (Z.of_nat (n - 55))
  else if ((97 <=? n) && (n <=? 102))%nat then Some (Z.of_nat (n - 87))
  else None.

(** The digit scan: [acc] is the value read so far, [prev_us] tells that
    the previous character was an underscore, [seen] that a digit was
    read. It stops at the first character that is neither; two
    underscores in a row and an underscore at the end are errors. *)
Fixpoint scan_digits (acc : Z) (prev_us seen : bool) (s : string)
  : option (Z * bool * string) :=
  match s with
  | EmptyString => if prev_us then None else Some (acc, seen, s)
  | String c s' =>
      if Ascii.eqb c "_" then
        if prev_us then None else scan_digits acc true seen s'
      else
        match hex_digit c with
        | Some d => scan_digits (16 * acc + d) false true s'
        | None => if prev_us then None else Some (acc, seen, s)
        end
  end.

Definition skip_prefix16 (s : string) : string :=
  match s with
  | String "0" (String x r) =>
      if Ascii.eqb x "x" || Ascii.eqb x "X"
      then match r with
           | String "_" r' => r'
           | _ => r
           end
      else s
  | _ => s
  end.

Definition int16 (s : string) : result Z :=
  let s1 := lstrip_by int_space s in
  let '(sign, s2) :=
    match s1 with
    | String "+" r => (1%Z, r)
    | String "-" r => ((-1)%Z, r)
    | _ => (1%Z, s1)
    end in
  let s3 := skip_prefix16 s2 in
  match s3 with
  | String "_" _ => Raise ValueError
  | _ =>
      match scan_digits 0 false false s3 with
      | Some (v, true, rest) =>
          match lstrip_by int_space rest with
          | EmptyString => Ok (sign * v)%Z
          | _ => Raise ValueError
          end
      | _ => Raise ValueError
      end
  end.

End PyStr.
Import PyStr.

(** ** The decoders *)

(** The acknowledgement test, written twice in the script
    ([extract_group_address] and the loop of [split_and_save]). *)
Definition is_ack (rawdata : string) : bool :=
  endswith rawdata "CC" && (len rawdata <=? 24)%nat.

(** [f"{haupt}/{mittel}/{unter}"]. *)
Definition group_address_string (haupt mittel unter : Z) : string :=
  str_of_int haupt ++ "/" ++ str_of_int mittel ++ "/" ++ str_of_int unter.

(** [f"{haupt}.{linie}.{teilnehmer}"]. *)
Definition physical_address_string (haupt linie teilnehmer : Z) : string :=
  str_of_int haupt ++ "." ++ str_of_int linie ++ "." ++ str_of_int teilnehmer.

(** The body of [extract_group_address], inside its [try]. *)
Definition extract_group_address_body (rawdata : string) : result string :=
  if endswith rawdata "CC" && (len rawdata <=? 24)%nat then Ok "IGNORE"
  else if (len rawdata <? 28)%nat then Ok "IGNORE"
  else
    let ziel_start := 28%nat in
    if (len rawdata <? ziel_start + 4)%nat then Ok "IGNORE"
    else
      byte1 <- int16 (slice rawdata ziel_start (ziel_start + 2)) ;;
      byte2 <- int16 (slice rawdata (ziel_start + 2) (ziel_start + 4)) ;;
      let haupt := Z.shiftr (Z.land byte1 240) 4 in
      let mittel := Z.land byte1 15 in
      let unter := byte2 in
      Ok (group_address_string haupt mittel unter).

Definition extract_group_address (rawdata : string) : result string :=
  try_except (extract_group_address_body rawdata) (fun _ => Ok EmptyString).

(** The body of [KNXSplitter.get_physical_address], inside its [try]. *)
Definition get_physical_address_body (rawdata : string) : result string :=
  if endswith rawdata "CC" then Ok EmptyString
  else if (len rawdata <? 26)%nat then Ok EmptyString
  else
    let quell_start := 24%nat in
    byte1 <- int16 (slice rawdata quell_start (quell_start + 2)) ;;
    byte2 <- int16 (slice rawdata (quell_start + 2) (quell_start + 4)) ;;
    let haupt := Z.shiftr (Z.land byte1 240) 4 in
    let linie := Z.land byte1 15 in
    let teilnehmer := byte2 in
    Ok (physical_address_string haupt linie teilnehmer).

Definition get_physical_address (rawdata : string) : result string :=
  try_except (get_physical_address_body rawdata) (fun _ => Ok EmptyString).

(** ** [KNXSplitter.__init__] *)

(** [ga if ga.endswith('/') else ga + '/']. *)
Definition normalize_one (ga : string) : string :=
  if endswith ga "/" then ga else ga ++ "/".

(** One pass of the loop that fills [self.filter_list]: an empty entry is
    left out, every other entry is appended with its trailing slash. *)
Definition add_filter (filter_list : list string) (ga : string) : list string :=
  if (ga =? EmptyString) then filter_list
  else
    let ga_norm := normalize_one ga in
    (filter_list ++ [ga_norm])%list.

Definition normalize_filters (group_addresses : list string) : list string :=
  fold_left add_filter group_addresses [].

(** One entry of [parts]: [ga.replace('/', '_').strip('_')]. *)
Definition filename_part (ga : string) : string :=
  strip_char "_" (replace ga "/" "_").

Definition filename_of_filters (filter_list : list string) : string :=
  let parts := map filename_part filter_list in
  let joined := match parts with
                | [] => "all"
                | _ => join "-" parts
                end in
  "knx_tel_" ++ joined ++ ".xml".

Record KNXSplitter : Type := mkKNXSplitter {
  input_file : string;
  filter_list : list string;
  discard_others : bool;
  output_filename : string;
  other_filename : string
}.

Definition KNXSplitter_init (input_file : string) (group_addresses : list string)
    (discard_others : bool) : KNXSplitter :=
  let filter_list := normalize_filters group_addresses in
  {| input_file := input_file;
     filter_list := filter_list;
     discard_others := discard_others;
     output_filename := filename_of_filters filter_list;
     other_filename := "knx_tel.xml" |}.

(** ** The loop of [split_and_save] *)

(** A telegram as [xmltodict] hands it over: attribute keys (with their
    [@]) and values, in document order. *)
Definition telegram : Type := list (string * string).

(** [d.get(key, default)]. *)
Fixpoint dict_get (d : telegram) (key default : string) : string :=
  match d with
  | [] => default
  | (k, v) :: d' => if (k =? key) then v else dict_get d' key default
  end.

Definition raw_of (t : telegram) : string := dict_get t "@RawData" EmptyString.

(** ['filtered' | 'other'], the values [last_destination] takes besides
    [None]. *)
Inductive destination : Type :=
| Filtered
| Other.

(** The variables the loop updates. *)
Record loop_state : Type := mkState {
  filtered_telegrams : list telegram;
  other_telegrams : list telegram;
  filtered_comments : list string;
  other_comments : list string;
  last_effective_ga : option string;
  last_destination : option destination
}.

Definition initial_state : loop_state :=
  {| filtered_telegrams := []; other_telegrams := [];
     filtered_comments := []; other_comments := [];
     last_effective_ga := None; last_destination := None |}.

(** [filtered_telegrams.append(t); filtered_comments.append(c)]. *)
Definition append_filtered (st : loop_state) (t : telegram) (c : string)
  : loop_state :=
  {| filtered_telegrams := (filtered_telegrams st ++ [t])%list;
     other_telegrams := other_telegrams st;
     filtered_comments := (filtered_comments st ++ [c])%list;
     other_comments := other_comments st;
     last_effective_ga := last_effective_ga st;
     last_destination := last_destination st |}.

Definition append_other (st : loop_state) (t : telegram) (c : string)
  : loop_state :=
  {| filtered_telegrams := filtered_telegrams st;
     other_telegrams := (other_telegrams st ++ [t])%list;
     filtered_comments := filtered_comments st;
     other_comments := (other_comments st ++ [c])%list;
     last_effective_ga := last_effective_ga st;
     last_destination := last_destination st |}.

Definition set_last_destination (st : loop_state) (d : destination)
  : loop_state :=
  {| filtered_telegrams := filtered_telegrams st;
     other_telegrams := other_telegrams st;
     filtered_comments := filtered_comments st;
     other_comments := other_comments st;
     last_effective_ga := last_effective_ga st;
     last_destination := Some d |}.

Definition set_last_effective_ga (st : loop_state) (ga : string) : loop_state :=
  {| filtered_telegrams := filtered_telegrams st;
     other_telegrams := other_telegrams st;
     filtered_comments := filtered_comments st;
     other_comments := other_comments st;
     last_effective_ga := Some ga;
     last_destination := last_destination st |}.

(** [f"<!-- GA: {ga} ; QA: {qa} -->"]. *)
Definition make_comment (ga qa : string) : string :=
  "<!-- GA: " ++ ga ++ " ; QA: " ++ qa ++ " -->".

(** [any(group_address.startswith(f) for f in self.filter_list)]. *)
Definition matches_filter (filter_list : list string) (group_address : string)
  : bool :=
  existsb (fun f => startswith group_address f) filter_list.

(** One pass through the body of the [for] loop. *)
Definition loop_body (filter_list : list string) (st : loop_state)
    (t : telegram) : result loop_state :=
  let rawdata := dict_get t "@RawData" EmptyString in
  if (rawdata =? EmptyString) then Ok st
  else
    let is_ack := endswith rawdata "CC" && (len rawdata <=? 24)%nat in
    if is_ack then
      match last_destination st with
      | Some Other => Ok (append_other st t EmptyString)
      | _ => Ok (append_filtered st t EmptyString)
      end
    else
      group_address <- extract_group_address rawdata ;;
      if (group_address =? "IGNORE") || (group_address =? EmptyString) then
        physical_address <- get_physical_address rawdata ;;
        let ign_comment := make_comment "IGNORE (unbestimmt)" physical_address in
        Ok (set_last_destination (append_filtered st t ign_comment) Filtered)
      else
        let st := set_last_effective_ga st group_address in
        physical_address <- get_physical_address rawdata ;;
        let comment := make_comment group_address physical_address in
        if matches_filter filter_list group_address then
          Ok (set_last_destination (append_filtered st t comment) Filtered)
        else
          Ok (set_last_destination (append_other st t comment) Other).

(** The [for] loop from a given state. *)
Fixpoint split_loop (filter_list : list string) (st : loop_state)
    (telegrams : list telegram) : result loop_state :=
  match telegrams with
  | [] => Ok st
  | t :: rest =>
      st' <- loop_body filter_list st t ;;
      split_loop filter_list st' rest
  end.

(** The partition [split_and_save] computes before it writes anything. *)
Definition split_telegrams (self : KNXSplitter) (telegrams : list telegram)
  : result loop_state :=
  split_loop (filter_list self) initial_state telegrams.

(** ** [insert_comments] *)

(** [l[i]] on a list: [IndexError] out of range. *)
Definition list_index {A : Type} (l : list A) (i : nat) : result A :=
  match nth_error l i with
  | Some a => Ok a
  | None => Raise IndexError
  end.

(** The text the split is made at: [RawData=] and a double quote. *)
Definition rawdata_open : string := "RawData=" ++ String dquote EmptyString.

(** The telegram as a self-closing element: [parts[0]], the [RawData]
    attribute with [rawdata_part] between double quotes, and [ />]. *)
Definition self_closing (part0 rawdata_part : string) : string :=
  part0 ++ rawdata_open ++ rawdata_part ++ String dquote " />".

(** The first padding: [telegram_part] filled up with spaces until it and
    the indentation take 165 characters. *)
Definition pad_telegram_part (telegram_part : string) : string :=
  let spaces_needed := (165 - (Z.of_nat (len telegram_part) + 4))%Z in
  if (0 <? spaces_needed)%Z
  then telegram_part ++ spaces (Z.to_nat spaces_needed)
  else telegram_part.

(** The branch taken for a telegram line that has a comment: pads the
    telegram text, re-builds the comment and returns the new line. *)
Definition with_comment (telegram_part comment0 : string) : result string :=
  let telegram_part := pad_telegram_part telegram_part in
  let comment := replace comment0 "<!-- " EmptyString in
  ga <- list_index (split comment ";") 0 ;;
  let ga_part := strip ga in
  qa <- list_index (split comment ";") 1 ;;
  let qa_part := strip qa in
  let current_pos := (Z.of_nat (len telegram_part) + 4)%Z in
  let semicolon_pos := (current_pos + 5 + Z.of_nat (len ga_part))%Z in
  let spaces_before_semicolon := (183 - semicolon_pos)%Z in
  let comment :=
    if (0 <? spaces_before_semicolon)%Z
    then
      let ga_part := ga_part ++ spaces (Z.to_nat spaces_before_semicolon) in
      "<!-- " ++ ga_part ++ "; " ++ qa_part
    else comment in
  Ok ("    " ++ telegram_part ++ comment ++ String newline EmptyString).

(** The body of the loop over the lines: the new line and the new
    [comment_idx]. *)
Definition insert_comment_line (comments : list string) (comment_idx : nat)
    (line : string) : result (string * nat) :=
  if contains "<Telegram" line && contains "</Telegram>" line then
    let line := lstrip line in
    match split line rawdata_open with
    | [part0; part1] =>
        rawdata_part <- list_index (split part1 (String dquote EmptyString)) 0 ;;
        let telegram_part := self_closing part0 rawdata_part in
        match nth_error comments comment_idx with
        | Some (String c0 c') =>
            line <- with_comment telegram_part (String c0 c') ;;
            Ok (line, S comment_idx)
        | _ =>
            Ok ("    " ++ telegram_part ++ String newline EmptyString,
                S comment_idx)
        end
    | _ => Ok (line, comment_idx)
    end
  else Ok (line, comment_idx).

(** The loop over [lines], from a given [comment_idx]. *)
Fixpoint insert_comments_from (comments : list string) (comment_idx : nat)
    (lines : list string) : result (list string) :=
  match lines with
  | [] => Ok []
  | line :: rest =>
      r <- insert_comment_line comments comment_idx line ;;
      new_rest <- insert_comments_from comments (snd r) rest ;;
      Ok (fst r :: new_rest)
  end.

(** [insert_comments]: from the lines read to the lines written back. *)
Definition insert_comments (lines comments : list string) : result (list string) :=
  insert_comments_from comments 0 lines.

(** ** Notions the statements below are written with *)

(** The telegrams the loop does not skip. *)
Definition has_raw (t : telegram) : bool := negb (raw_of t =? EmptyString).

(** [m] is an order-preserving merge of [l] and [r]: every element of [m]
    comes from exactly one of them, at its place. *)
Inductive interleave {A : Type} : list A -> list A -> list A -> Prop :=
| interleave_nil : interleave [] [] []
| interleave_left x l r m : interleave l r m -> interleave (x :: l) r (x :: m)
| interleave_right x l r m : interleave l r m -> interleave l (x :: r) (x :: m).

(** A telegram the loop passes over without a change of [last_destination]:
    one it skips, or an acknowledgement. *)
Definition skipped_or_ack (t : telegram) : Prop :=
  raw_of t = EmptyString \/ is_ack (raw_of t) = true.

(** [c] occurs in [s]. *)
Fixpoint has_char (c : ascii) (s : string) : bool :=
  match s with
  | EmptyString => false
  | String a s' => Ascii.eqb a c || has_char c s'
  end.

Fixpoint string_forallb (p : ascii -> bool) (s : string) : bool :=
  match s with
  | EmptyString => true
  | String a s' => p a && string_forallb p s'
  end.

Definition is_hex_char (c : ascii) : bool :=
  match hex_digit c with
  | Some _ => true
  | None => false
  end.

(** A string of hexadecimal digits, as the log holds them. *)
Definition is_hex_string (s : string) : bool := string_forallb is_hex_char s.

(** What one pass does to the two collections: nothing for a skipped
    telegram, one telegram and one comment more on exactly one side
    otherwise. *)
Inductive pass_effect (st : loop_state) (t : telegram) (st' : loop_state) : Prop :=
| pass_skipped :
    raw_of t = EmptyString -> st' = st -> pass_effect st t st'
| pass_filtered c :
    raw_of t <> EmptyString ->
    filtered_telegrams st' = (filtered_telegrams st ++ [t])%list ->
    filtered_comments st' = (filtered_comments st ++ [c])%list ->
    other_telegrams st' = other_telegrams st ->
    other_comments st' = other_comments st ->
    pass_effect st t st'
| pass_other c :
    raw_of t <> EmptyString ->
    other_telegrams st' = (other_telegrams st ++ [t])%list ->
    other_comments st' = (other_comments st ++ [c])%list ->
    filtered_telegrams st' = filtered_telegrams st ->
    filtered_comments st' = filtered_comments st ->
    pass_effect st t st'.

(** ** Sample data *)

(** The eleven header bytes of a bus monitor frame. *)
Definition sample_header : string := "2B07030105040205024400".

(** A data frame: header, control byte, source and destination address
    (four hex digits each), then the rest of the frame. *)
Definition data_frame (source destination : string) : string :=
  sample_header ++ "BC" ++ source ++ destination ++ "E100813A".

(** An acknowledgement: the header and the byte [CC], 24 characters. *)
Definition ack_frame : string := sample_header ++ "CC".

Definition sample_telegram (raw : string) : telegram :=
  [("@Timestamp", "2023-10-01T12:00:00.000Z"); ("@Service", "L_Busmon.ind");
   ("@FrameFormat", "CommonEmi"); ("@RawData", raw)].

(** A telegram without [@RawData]. *)
Definition blank_telegram : telegram :=
  [("@Timestamp", "2023-10-01T12:00:01.000Z"); ("@Service", "L_Busmon.ind")].

(** A 28-character frame that is no acknowledgement: room for the source
    address, none for the destination address. *)
Definition frame28 : string := sample_header ++ "BC" ++ "1105".

(** A 20-character frame that is no acknowledgement. *)
Definition frame20 : string := "2B070301050402050244".

(** A data frame whose destination bytes are no hexadecimal digits. *)
Definition frame_malformed : string := data_frame "1105" "ZZ05".

(** ** The file name in the words of the specification

    Each entry has every slash replaced by an underscore and the
    underscores at its two ends taken off; the entries are joined with a
    hyphen between [knx_tel_] and [.xml]; no entry gives [all]. Written
    on lists of characters, to be compared with [filename_of_filters]. *)

Definition slash_to_underscore (c : ascii) : ascii :=
  if Ascii.eqb c "/" then "_"%char else c.

Fixpoint drop_while (p : ascii -> bool) (l : list ascii) : list ascii :=
  match l with
  | [] => []
  | c :: l' => if p c then drop_while p l' else l
  end.

Definition is_underscore (c : ascii) : bool := Ascii.eqb "_" c.

Definition spec_filename_part (entry : string) : string :=
  let chars := map slash_to_underscore (list_ascii_of_string entry) in
  let no_lead := drop_while is_underscore chars in
  string_of_list_ascii (rev (drop_while is_underscore (rev no_lead))).

Definition spec_filename (filters : list string) : string :=
  match filters with
  | [] => "knx_tel_all.xml"
  | _ => "knx_tel_" ++ String.concat "-" (map spec_filename_part filters) ++ ".xml"
  end.

(** ** Notions for the layout of a written line *)

(** The spaces put between [ga_part] and the semicolon: what is missing
    for the indentation, the padded telegram text, the five characters of
    the comment opener and [ga_part] to take 183 characters. *)
Definition semicolon_gap (telegram_part ga_part : string) : nat :=
  183 - (4 + len (pad_telegram_part telegram_part) + 5 + len ga_part).

(** The comment opener with the space [insert_comments] removes with it. *)
Definition opener : string := "<!-- ".

(** [s] between double quotes. *)
Definition quoted (s : string) : string :=
  String dquote (s ++ String dquote EmptyString).

(** A line as [xmltodict.unparse] writes it for a telegram: one tab, the
    attributes in order, an opening and a closing tag. *)
Definition sample_line (raw : string) : string :=
  String "009"%char
    ("<Telegram Timestamp=" ++ quoted "2023-10-01T12:00:00.000Z"
     ++ " Service=" ++ quoted "L_Busmon.ind"
     ++ " FrameFormat=" ++ quoted "CommonEmi"
     ++ " RawData=" ++ quoted raw ++ "></Telegram>" ++ String newline EmptyString).

(** The same telegram as [insert_comments] writes it, before any comment. *)
Definition sample_telegram_part (raw : string) : string :=
  "<Telegram Timestamp=" ++ quoted "2023-10-01T12:00:00.000Z"
  ++ " Service=" ++ quoted "L_Busmon.ind"
  ++ " FrameFormat=" ++ quoted "CommonEmi"
  ++ " RawData=" ++ quoted raw ++ " />".

(** ** Notions for [int] on short strings *)





(** A data frame of 40 characters whose last byte is [CC]. *)
Definition frame_cc_tail : string := sample_header ++ "BC" ++ "1105" ++ "2305" ++ "E10081CC".

(** ** What the two collections may hold *)

(** A telegram of the filtered collection with its comment: an
    acknowledgement without comment, a telegram nothing was decoded for,
    or a telegram whose group address some filter entry begins. *)
Definition filtered_entry (fl : list string) (t : telegram) (c : string) : Prop :=
  (is_ack (raw_of t) = true /\ c = EmptyString) \/
  (exists ga pa,
      raw_of t <> EmptyString /\ is_ack (raw_of t) = false /\
      extract_group_address (raw_of t) = Ok ga /\
      get_physical_address (raw_of t) = Ok pa /\
      (((ga = "IGNORE" \/ ga = EmptyString) /\
        c = make_comment "IGNORE (unbestimmt)" pa) \/
       (ga <> "IGNORE" /\ ga <> EmptyString /\
        matches_filter fl ga = true /\ c = make_comment ga pa))).

(** A telegram of the other collection with its comment: an
    acknowledgement without comment, or a telegram whose group address no
    filter entry begins. *)
Definition other_entry (fl : list string) (t : telegram) (c : string) : Prop :=
  (is_ack (raw_of t) = true /\ c = EmptyString) \/
  (exists ga pa,
      extract_group_address (raw_of t) = Ok ga /\
      get_physical_address (raw_of t) = Ok pa /\
      ga <> "IGNORE" /\ ga <> EmptyString /\
      matches_filter fl ga = false /\ c = make_comment ga pa).

(** The two collections with their comments, and what [last_destination]
    tells about the other collection. *)
Definition routed_as_decided (fl : list string) (st : loop_state) : Prop :=
  Forall2 (filtered_entry fl) (filtered_telegrams st) (filtered_comments st) /\
  Forall2 (other_entry fl) (other_telegrams st) (other_comments st).

Definition other_led_by_data (st : loop_state) : Prop :=
  (last_destination st = Some Other -> other_telegrams st <> []) /\
  (forall t rest, other_telegrams st = t :: rest ->
                  raw_of t <> EmptyString /\ is_ack (raw_of t) = false).

(** ** Notions for [insert_comments] as a whole *)

(** The lines [insert_comments] rewrites, each taking one comment: they
    hold an opening and a closing Telegram tag and split in exactly two at
    the RawData attribute. *)
Definition telegram_line (line : string) : bool :=
  contains "<Telegram" line && contains "</Telegram>" line
  && (List.length (split (lstrip line) rawdata_open) =? 2)%nat.

(** The comments the loop of [split_and_save] builds: none, or the two
    decoded addresses, which hold no [<]. *)
Definition loop_comment (c : string) : Prop :=
  c = EmptyString \/
  exists ga pa,
    has_char "<" ga = false /\ has_char "<" pa = false /\ c = make_comment ga pa.

(** The first line [xmltodict.unparse] writes. *)
Definition xml_declaration : string :=
  "<?xml version=" ++ quoted "1.0" ++ " encoding=" ++ quoted "utf-8" ++ "?>".

(** ** [split_and_save] up to the two documents it hands to the writer

    The parsed document is a [dict] with the root element's name as key;
    the root's value is a [dict] of its attributes and children. A child
    is a [dict] when it occurs once and a [list] of them when it occurs
    more often; an attribute, like a child that holds only text, is a
    [str]. *)

Inductive node : Type :=
| Text (s : string)
| Element (t : telegram)
| Elements (l : list telegram).

Definition py_dict (V : Type) : Type := list (string * V).

(** [d[key]] where it exists. *)
Fixpoint dict_lookup {V : Type} (d : py_dict V) (key : string) : option V :=
  match d with
  | [] => None
  | (k, v) :: d' => if (k =? key) then Some v else dict_lookup d' key
  end.

(** [d[key] = v]: the value is replaced where the key is, a new key goes
    to the end. *)
Fixpoint dict_set {V : Type} (d : py_dict V) (key : string) (v : V) : py_dict V :=
  match d with
  | [] => [(key, v)]
  | (k, v') :: d' =>
      if (k =? key) then (k, v) :: d' else (k, v') :: dict_set d' key v
  end.

(** The exceptions that leave [split_and_save] before it writes. *)
Inductive py_error : Type :=
| PyValueError                  (* no data loaded, or one out of the loop *)
| PyIndexError
| PyKeyError (key : string)
| PyAttributeError.             (* [.get] on a [str] *)

Definition py_error_of (e : exn) : py_error :=
  match e with
  | ValueError => PyValueError
  | IndexError => PyIndexError
  end.

(** What the writer gets: the two documents and the two comment lists. *)
Record save_data : Type := mkSaveData {
  filtered_data : py_dict (py_dict node);
  other_data : py_dict (py_dict node);
  save_filtered_comments : list string;
  save_other_comments : list string
}.

Inductive outcome : Type :=
| Saved (d : save_data)
| Failed (e : py_error).

(** The list the loop runs over: the value under [Telegram], put in a
    list when it is none; [None] here stands for a [str] in that place,
    on which the first pass of the loop raises. *)
Definition telegrams_of (xml_data : py_dict (py_dict node)) : option (list telegram) :=
  match dict_lookup xml_data "CommunicationLog" with
  | Some root =>
      match dict_lookup root "Telegram" with
      | Some (Elements l) => Some l
      | Some (Element t) => Some [t]
      | Some (Text _) => None
      | None => Some []
      end
  | None => Some []
  end.

(** [{k: v for k, v in root.items() if not k == 'Telegram'}]. *)
Definition commlog_attrs_of (root : py_dict node) : py_dict node :=
  filter (fun kv => negb (fst kv =? "Telegram")) root.

(** [{'CommunicationLog': {**commlog_attrs, 'Telegram': telegrams}}]. *)
Definition document_of (commlog_attrs : py_dict node) (telegrams : list telegram)
  : py_dict (py_dict node) :=
  [("CommunicationLog", dict_set commlog_attrs "Telegram" (Elements telegrams))].

Definition split_and_save_data (self : KNXSplitter)
    (xml_data : option (py_dict (py_dict node))) : outcome :=
  match xml_data with
  | None => Failed PyValueError
  | Some doc =>
      match telegrams_of doc with
      | None => Failed PyAttributeError
      | Some telegrams =>
          match split_loop (filter_list self) initial_state telegrams with
          | Raise e => Failed (py_error_of e)
          | Ok st =>
              match dict_lookup doc "CommunicationLog" with
              | None => Failed (PyKeyError "CommunicationLog")
              | Some root =>
                  let commlog_attrs := commlog_attrs_of root in
                  Saved {| filtered_data :=
                             document_of commlog_attrs (filtered_telegrams st);
                           other_data :=
                             document_of commlog_attrs (other_telegrams st);
                           save_filtered_comments := filtered_comments st;
                           save_other_comments := other_comments st |}
              end
          end
      end
  end.

(** A root element with two attributes, a child of its own and two
    telegrams. *)
Definition sample_root : py_dict node :=
  [("@xmlns", Text "http://knx.org/xml/telegrams/01");
   ("RecordStart", Element [("@Timestamp", "2023-10-01T11:59:59.000Z")]);
   ("Telegram", Elements [sample_telegram (data_frame "1105" "2305");
                          sample_telegram ack_frame])].

(** The characters of a rendered address: digits, the two separators and
    the minus sign. *)
Definition address_char (c : ascii) : bool :=
  let n := nat_of_ascii c in
  ((48 <=? n) && (n <=? 57))%nat
  || Ascii.eqb c "/" || Ascii.eqb c "." || Ascii.eqb c "-".

(** * Properties *)

(** ** Strings *)

Lemma len_app (a b : string) : len (a ++ b) = (len a + len b)%nat.
Proof.
  unfold len. induction a as [|c a IH]; simpl; [reflexivity | now rewrite IH].
Qed.

Lemma len_spaces (n : nat) : len (spaces n) = n.
Proof.
  unfold len. induction n as [|n IH]; simpl; [reflexivity | now rewrite IH].
Qed.

Lemma app_empty_r (s : string) : s ++ EmptyString = s.
Proof.
  induction s as [|c s IH]; simpl; [reflexivity | now rewrite IH].
Qed.

Lemma app_assoc_s (a b c : string) : (a ++ b) ++ c = a ++ (b ++ c).
Proof.
  induction a as [|x a IH]; simpl; [reflexivity | now rewrite IH].
Qed.

(** Reading past a known beginning. *)
Lemma substring_skip (h s : string) (a m : nat) :
  substring (len h + a) m (h ++ s) = substring a m s.
Proof.
  induction h as [|c h IH]; simpl; [reflexivity | exact IH].
Qed.

(** A string of [n + k] characters splits after its first [n]. *)
Lemma split_at (n : nat) : forall s : string,
  (n <= len s)%nat -> exists h t, s = h ++ t /\ len h = n.
Proof.
  induction n as [|n IH]; intros s Hn.
  - exists EmptyString, s. split; reflexivity.
  - destruct s as [|c s]; simpl in Hn; [lia|].
    destruct (IH s) as (h & t & -> & Hh); [unfold len in *; lia|].
    exists (String c h), t. split; [reflexivity | simpl; now rewrite Hh].
Qed.

Lemma is_ack_nonempty (raw : string) : is_ack raw = true -> raw <> EmptyString.
Proof.
  intros H ->. discriminate H.
Qed.

(** ** The decoders never raise *)

Lemma extract_group_address_total (raw : string) :
  exists s, extract_group_address raw = Ok s.
Proof.
  unfold extract_group_address.
  destruct (extract_group_address_body raw) as [s|e]; simpl; eauto.
Qed.

Lemma get_physical_address_total (raw : string) :
  exists s, get_physical_address raw = Ok s.
Proof.
  unfold get_physical_address.
  destruct (get_physical_address_body raw) as [s|e]; simpl; eauto.
Qed.

(** ** The loop body, case by case *)

Lemma loop_body_skip fl st t :
  raw_of t = EmptyString -> loop_body fl st t = Ok st.
Proof.
  unfold loop_body, raw_of. intros ->. reflexivity.
Qed.

Lemma loop_body_ack fl st t :
  is_ack (raw_of t) = true ->
  loop_body fl st t =
    Ok (match last_destination st with
        | Some Other => append_other st t EmptyString
        | _ => append_filtered st t EmptyString
        end).
Proof.
  intros Hack. pose proof (is_ack_nonempty _ Hack) as Hne.
  unfold loop_body. fold (raw_of t).
  apply String.eqb_neq in Hne. rewrite Hne.
  unfold is_ack in Hack. rewrite Hack.
  destruct (last_destination st) as [[|]|]; reflexivity.
Qed.

Lemma loop_body_ignore fl st t ga pa :
  raw_of t <> EmptyString -> is_ack (raw_of t) = false ->
  extract_group_address (raw_of t) = Ok ga ->
  ga = "IGNORE" \/ ga = EmptyString ->
  get_physical_address (raw_of t) = Ok pa ->
  loop_body fl st t =
    Ok (set_last_destination
          (append_filtered st t (make_comment "IGNORE (unbestimmt)" pa)) Filtered).
Proof.
  intros Hne Hack Hga Hsent Hpa.
  unfold loop_body. fold (raw_of t).
  apply String.eqb_neq in Hne. rewrite Hne.
  unfold is_ack in Hack. rewrite Hack, Hga. simpl.
  destruct Hsent as [-> | ->]; simpl; rewrite Hpa; reflexivity.
Qed.

Lemma loop_body_data fl st t ga pa :
  raw_of t <> EmptyString -> is_ack (raw_of t) = false ->
  extract_group_address (raw_of t) = Ok ga ->
  ga <> "IGNORE" -> ga <> EmptyString ->
  get_physical_address (raw_of t) = Ok pa ->
  loop_body fl st t =
    Ok (if matches_filter fl ga
        then set_last_destination
               (append_filtered (set_last_effective_ga st ga) t (make_comment ga pa))
               Filtered
        else set_last_destination
               (append_other (set_last_effective_ga st ga) t (make_comment ga pa))
               Other).
Proof.
  intros Hne Hack Hga Hn1 Hn2 Hpa.
  unfold loop_body. fold (raw_of t).
  apply String.eqb_neq in Hne. rewrite Hne.
  unfold is_ack in Hack. rewrite Hack, Hga. simpl.
  apply String.eqb_neq in Hn1, Hn2. rewrite Hn1, Hn2. simpl.
  rewrite Hpa. simpl. destruct (matches_filter fl ga); reflexivity.
Qed.

Lemma loop_body_effect fl st t :
  exists st', loop_body fl st t = Ok st' /\ pass_effect st t st'.
Proof.
  destruct (string_dec (raw_of t) EmptyString) as [He|Hne].
  - exists st. split; [now apply loop_body_skip | now apply pass_skipped].
  - destruct (is_ack (raw_of t)) eqn:Hack.
    + rewrite (loop_body_ack _ _ _ Hack).
      destruct (last_destination st) as [[|]|]; eexists; split; try reflexivity;
        solve [ eapply pass_filtered; simpl; solve [reflexivity | assumption]
              | eapply pass_other; simpl; solve [reflexivity | assumption] ].
    + destruct (extract_group_address_total (raw_of t)) as [ga Hga].
      destruct (get_physical_address_total (raw_of t)) as [pa Hpa].
      destruct (string_dec ga "IGNORE") as [E1|N1];
        [|destruct (string_dec ga EmptyString) as [E2|N2]].
      * rewrite (loop_body_ignore fl st t ga pa); auto.
        eexists; split; [reflexivity|].
        eapply pass_filtered; simpl; solve [reflexivity | assumption].
      * rewrite (loop_body_ignore fl st t ga pa); auto.
        eexists; split; [reflexivity|].
        eapply pass_filtered; simpl; solve [reflexivity | assumption].
      * rewrite (loop_body_data fl st t ga pa); auto.
        destruct (matches_filter fl ga); eexists; split; try reflexivity;
          solve [ eapply pass_filtered; simpl; solve [reflexivity | assumption]
              | eapply pass_other; simpl; solve [reflexivity | assumption] ].
Qed.

(** ** The loop as a whole *)

Lemma split_loop_app fl (l1 l2 : list telegram) : forall st,
  split_loop fl st (l1 ++ l2)%list =
    (st' <- split_loop fl st l1 ;; split_loop fl st' l2).
Proof.
  induction l1 as [|t l1 IH]; intros st; simpl; [reflexivity|].
  destruct (loop_body fl st t) as [st1|e]; simpl; [apply IH | reflexivity].
Qed.

Lemma interleave_In {A : Type} (l r m : list A) :
  interleave l r m -> forall x, In x l \/ In x r -> In x m.
Proof.
  induction 1 as [|y l r m _ IH|y l r m _ IH]; intros x [Hx|Hx];
    simpl in *; try tauto.
  - destruct Hx as [->|Hx]; [now left | right; apply IH; now left].
  - right; apply IH; now right.
  - right; apply IH; now left.
  - destruct Hx as [->|Hx]; [now left | right; apply IH; now right].
Qed.

Lemma interleave_length {A : Type} (l r m : list A) :
  interleave l r m -> (List.length l + List.length r)%nat = List.length m.
Proof.
  induction 1; simpl; lia.
Qed.

(** From any state, the loop adds to the two collections an
    order-preserving split of the telegrams it does not skip, and one
    comment per telegram. *)
Lemma split_loop_partition fl (ts : list telegram) : forall st,
  exists st' f o fc oc,
    split_loop fl st ts = Ok st' /\
    filtered_telegrams st' = (filtered_telegrams st ++ f)%list /\
    other_telegrams st' = (other_telegrams st ++ o)%list /\
    filtered_comments st' = (filtered_comments st ++ fc)%list /\
    other_comments st' = (other_comments st ++ oc)%list /\
    interleave f o (filter has_raw ts) /\
    List.length fc = List.length f /\ List.length oc = List.length o.
Proof.
  induction ts as [|t ts IH]; intros st.
  - exists st, [], [], [], []. simpl. rewrite !app_nil_r.
    repeat split; constructor.
  - destruct (loop_body_effect fl st t) as (st1 & Hbody & Heff).
    destruct (IH st1) as (st' & f & o & fc & oc & Hl & Hf & Ho & Hfc & Hoc & Hi & Lf & Lo).
    simpl. rewrite Hbody. simpl. unfold has_raw at 1.
    destruct Heff as [He ->|c Hne E1 E2 E3 E4|c Hne E1 E2 E3 E4].
    + rewrite He. simpl. exists st', f, o, fc, oc. repeat split; assumption.
    + apply String.eqb_neq in Hne. rewrite Hne. simpl.
      exists st', (t :: f), o, (c :: fc), oc.
      rewrite Hf, Ho, Hfc, Hoc, E1, E2, E3, E4, <- !app_assoc. simpl.
      repeat split; try assumption; [now constructor | lia].
    + apply String.eqb_neq in Hne. rewrite Hne. simpl.
      exists st', f, (t :: o), fc, (c :: oc).
      rewrite Hf, Ho, Hfc, Hoc, E1, E2, E3, E4, <- !app_assoc. simpl.
      repeat split; try assumption; [now constructor | lia].
Qed.

(** Skipped telegrams and acknowledgements leave [last_destination] as it
    is. *)
Lemma split_loop_keeps_destination fl (mid : list telegram) : forall st,
  Forall skipped_or_ack mid ->
  exists st', split_loop fl st mid = Ok st' /\
              last_destination st' = last_destination st.
Proof.
  induction mid as [|t mid IH]; intros st Hall.
  - exists st. split; reflexivity.
  - inversion Hall as [|? ? [He|Hack] Hrest]; subst; simpl.
    + rewrite (loop_body_skip _ _ _ He). simpl. now apply IH.
    + rewrite (loop_body_ack _ _ _ Hack). simpl.
      destruct (last_destination st) as [[|]|] eqn:Hd0.
      * destruct (IH (append_filtered st t EmptyString) Hrest) as (st' & Hl & Hd).
        exists st'. split; [exact Hl | now rewrite Hd].
      * destruct (IH (append_other st t EmptyString) Hrest) as (st' & Hl & Hd).
        exists st'. split; [exact Hl | now rewrite Hd].
      * destruct (IH (append_filtered st t EmptyString) Hrest) as (st' & Hl & Hd).
        exists st'. split; [exact Hl | now rewrite Hd].
Qed.

(** A telegram that is neither skipped nor an acknowledgement goes to one
    side, and [last_destination] names that side afterwards. *)
Lemma loop_body_routes fl st t :
  raw_of t <> EmptyString -> is_ack (raw_of t) = false ->
  exists st', loop_body fl st t = Ok st' /\
    ((filtered_telegrams st' = (filtered_telegrams st ++ [t])%list /\
      other_telegrams st' = other_telegrams st /\
      last_destination st' = Some Filtered) \/
     (other_telegrams st' = (other_telegrams st ++ [t])%list /\
      filtered_telegrams st' = filtered_telegrams st /\
      last_destination st' = Some Other)).
Proof.
  intros Hne Hack.
  destruct (extract_group_address_total (raw_of t)) as [ga Hga].
  destruct (get_physical_address_total (raw_of t)) as [pa Hpa].
  destruct (string_dec ga "IGNORE") as [E1|N1];
    [|destruct (string_dec ga EmptyString) as [E2|N2]].
  - rewrite (loop_body_ignore fl st t ga pa); auto.
    eexists; split; [reflexivity|]. left. repeat split.
  - rewrite (loop_body_ignore fl st t ga pa); auto.
    eexists; split; [reflexivity|]. left. repeat split.
  - rewrite (loop_body_data fl st t ga pa); auto.
    destruct (matches_filter fl ga); eexists; split; try reflexivity;
      [left | right]; repeat split.
Qed.

(** ** The partition *)

(** C1. For every telegram sequence the loop ends without an exception;
    the filtered and the other collection are an order-preserving split of
    the telegrams whose [@RawData] is non-empty (merging the two by
    original position gives back exactly these telegrams, so none is
    duplicated, dropped or moved), telegrams with a missing or empty
    [@RawData] are in neither collection, and each collection has one
    comment per telegram. *)
Theorem split_is_stable_partition (self : KNXSplitter) (telegrams : list telegram) :
  exists st,
    split_telegrams self telegrams = Ok st /\
    interleave (filtered_telegrams st) (other_telegrams st)
               (filter has_raw telegrams) /\
    (List.length (filtered_telegrams st) + List.length (other_telegrams st))%nat
      = List.length (filter has_raw telegrams) /\
    (forall t, In t (filtered_telegrams st) \/ In t (other_telegrams st) ->
               In t telegrams /\ raw_of t <> EmptyString) /\
    List.length (filtered_comments st) = List.length (filtered_telegrams st) /\
    List.length (other_comments st) = List.length (other_telegrams st).
Proof.
  unfold split_telegrams.
  destruct (split_loop_partition (filter_list self) telegrams initial_state)
    as (st & f & o & fc & oc & Hl & Hf & Ho & Hfc & Hoc & Hi & Lf & Lo).
  simpl in Hf, Ho, Hfc, Hoc. subst f o fc oc.
  exists st. repeat split; try assumption.
  - now apply interleave_length.
  - apply (interleave_In _ _ _ Hi) in H. now apply filter_In in H.
  - apply (interleave_In _ _ _ Hi) in H. apply filter_In in H.
    destruct H as [_ H]. unfold has_raw in H.
    apply negb_true_iff in H. now apply String.eqb_neq.
Qed.

(** A run over six telegrams with the filter 1/2: an acknowledgement
    before any data, a telegram without raw data, a telegram for 2/3/5 and
    its acknowledgement, a telegram for 1/2/5, and a frame of 20
    characters. *)
Example split_sample_run :
  split_telegrams (KNXSplitter_init "log.xml" ["1/2"] false)
    [ sample_telegram ack_frame;
      blank_telegram;
      sample_telegram (data_frame "1105" "2305");
      sample_telegram ack_frame;
      sample_telegram (data_frame "1105" "1205");
      sample_telegram frame20 ]
  = Ok {| filtered_telegrams :=
            [ sample_telegram ack_frame;
              sample_telegram (data_frame "1105" "1205");
              sample_telegram frame20 ];
          other_telegrams :=
            [ sample_telegram (data_frame "1105" "2305");
              sample_telegram ack_frame ];
          filtered_comments :=
            [ EmptyString;
              "<!-- GA: 1/2/5 ; QA: 1.1.5 -->";
              "<!-- GA: IGNORE (unbestimmt) ; QA:  -->" ];
          other_comments := [ "<!-- GA: 2/3/5 ; QA: 1.1.5 -->"; EmptyString ];
          last_effective_ga := Some "1/2/5";
          last_destination := Some Filtered |}.
Proof.
  reflexivity.
Qed.

(** C2. An acknowledgement [a] (raw frame ending in CC, at most 24
    characters) that comes after the telegrams [before] and then [mid],
    where [mid] holds only skipped telegrams and acknowledgements, is
    appended with an empty comment and leaves [last_destination] as it is.
    When [before] is empty (no routed data telegram precedes it) it goes to
    the filtered collection; when [before] ends with a telegram [d] that is
    neither skipped nor an acknowledgement, it goes to the collection [d]
    was appended to. *)
Theorem ack_follows_last_data_telegram
    (fl : list string) (before mid : list telegram) (a : telegram) :
  Forall skipped_or_ack mid ->
  is_ack (raw_of a) = true ->
  exists s0 s3 s4,
    split_loop fl initial_state before = Ok s0 /\
    split_loop fl s0 mid = Ok s3 /\
    loop_body fl s3 a = Ok s4 /\
    split_loop fl initial_state (before ++ mid ++ [a])%list = Ok s4 /\
    last_destination s4 = last_destination s3 /\
    (s4 = append_filtered s3 a EmptyString \/ s4 = append_other s3 a EmptyString) /\
    (before = [] -> s4 = append_filtered s3 a EmptyString) /\
    (forall pre d,
        before = (pre ++ [d])%list ->
        raw_of d <> EmptyString -> is_ack (raw_of d) = false ->
        exists s1,
          split_loop fl initial_state pre = Ok s1 /\
          ((filtered_telegrams s0 = (filtered_telegrams s1 ++ [d])%list /\
            other_telegrams s0 = other_telegrams s1 /\
            s4 = append_filtered s3 a EmptyString) \/
           (other_telegrams s0 = (other_telegrams s1 ++ [d])%list /\
            filtered_telegrams s0 = filtered_telegrams s1 /\
            s4 = append_other s3 a EmptyString))).
Proof.
  intros Hmid Hack.
  destruct (split_loop_partition fl before initial_state) as (s0 & _ & _ & _ & _ & H0 & _).
  destruct (split_loop_keeps_destination fl mid s0 Hmid) as (s3 & H3 & Hd3).
  pose proof (loop_body_ack fl s3 a Hack) as H4.
  set (s4 := match last_destination s3 with
             | Some Other => append_other s3 a EmptyString
             | _ => append_filtered s3 a EmptyString
             end) in *.
  exists s0, s3, s4. repeat split; try assumption.
  - rewrite split_loop_app, H0. simpl.
    rewrite split_loop_app, H3. simpl. now rewrite H4.
  - subst s4. destruct (last_destination s3) as [[|]|] eqn:E; simpl; exact E.
  - subst s4. destruct (last_destination s3) as [[|]|]; auto.
  - intros ->. simpl in H0. injection H0 as <-.
    subst s4. rewrite Hd3. reflexivity.
  - intros pre d -> Hne Hnack.
    rewrite split_loop_app in H0.
    destruct (split_loop fl initial_state pre) as [s1|e] eqn:H1; [|discriminate].
    simpl in H0. exists s1. split; [reflexivity|].
    destruct (loop_body_routes fl s1 d Hne Hnack) as (s0' & Hb & Hside).
    rewrite Hb in H0. simpl in H0. injection H0 as ->.
    subst s4. rewrite Hd3.
    destruct Hside as [(E1 & E2 & E3)|(E1 & E2 & E3)]; rewrite E3; [left|right];
      repeat split; assumption.
Qed.

(** The filter is 1/2/; a data telegram for 2/3/5 goes to the other
    collection, and so does the acknowledgement that follows it after a
    telegram without raw data and another acknowledgement. *)
Lemma ack_follows_last_data_telegram_witness :
  exists s0 s3 s4,
    split_loop ["1/2/"] initial_state [sample_telegram (data_frame "1105" "2305")] = Ok s0 /\
    split_loop ["1/2/"] s0 [blank_telegram; sample_telegram ack_frame] = Ok s3 /\
    loop_body ["1/2/"] s3 (sample_telegram ack_frame) = Ok s4 /\
    other_telegrams s4 =
      [sample_telegram (data_frame "1105" "2305");
       sample_telegram ack_frame; sample_telegram ack_frame] /\
    other_comments s4 = ["<!-- GA: 2/3/5 ; QA: 1.1.5 -->"; EmptyString; EmptyString] /\
    filtered_telegrams s4 = [].
Proof.
  destruct (ack_follows_last_data_telegram ["1/2/"]
              [sample_telegram (data_frame "1105" "2305")]
              [blank_telegram; sample_telegram ack_frame]
              (sample_telegram ack_frame))
    as (s0 & s3 & s4 & H0 & H3 & H4 & _).
  - apply Forall_cons; [left; reflexivity|].
    apply Forall_cons; [right; reflexivity | apply Forall_nil].
  - reflexivity.
  - exists s0, s3, s4.
    vm_compute in H0. injection H0 as <-.
    vm_compute in H3. injection H3 as <-.
    vm_compute in H4. injection H4 as <-.
    repeat split; reflexivity.
Defined.

(** ** [int(s, 16)] on two hexadecimal digits *)

Lemma hex_digit_range (c : ascii) (d : Z) :
  hex_digit c = Some d -> (0 <= d < 16)%Z.
Proof.
  destruct c as [[] [] [] [] [] [] [] []]; intros H; cbv in H;
    try discriminate H; injection H as <-; lia.
Qed.

Lemma int16_hex_pair (c1 c2 : ascii) (d1 d2 : Z) :
  hex_digit c1 = Some d1 -> hex_digit c2 = Some d2 ->
  int16 (String c1 (String c2 EmptyString)) = Ok (16 * d1 + d2)%Z.
Proof.
  destruct c1 as [[] [] [] [] [] [] [] []]; intros H1; cbv in H1;
    try discriminate H1; injection H1 as <-;
    destruct c2 as [[] [] [] [] [] [] [] []]; intros H2; cbv in H2;
    try discriminate H2; injection H2 as <-; reflexivity.
Qed.



(** ** [extract_group_address], case by case *)

(** [(byte1 & 0xF0) >> 4] is [(byte1 >> 4) & 0xF]. *)
Lemma haupt_as_shift_then_mask (byte1 : Z) :
  Z.shiftr (Z.land byte1 240) 4 = Z.land (Z.shiftr byte1 4) 15.
Proof.
  rewrite Z.shiftr_land. reflexivity.
Qed.

Lemma nibble_range (b : Z) : (0 <= Z.land b 15 <= 15)%Z.
Proof.
  change 15%Z with (Z.ones 4) at 1 2. rewrite Z.land_ones by lia.
  pose proof (Z.mod_pos_bound b (2 ^ 4)) as H. change (2 ^ 4)%Z with 16%Z in *. lia.
Qed.

Lemma extract_ack (raw : string) :
  is_ack raw = true -> extract_group_address raw = Ok "IGNORE".
Proof.
  unfold is_ack, extract_group_address, extract_group_address_body.
  intros ->. reflexivity.
Qed.

Lemma extract_short (raw : string) :
  is_ack raw = false -> (len raw < 32)%nat ->
  extract_group_address raw = Ok "IGNORE".
Proof.
  unfold is_ack, extract_group_address, extract_group_address_body.
  intros -> Hlen.
  destruct (len raw <? 28)%nat eqn:H28; [reflexivity|].
  assert (H32 : (len raw <? 28 + 4)%nat = true) by (apply Nat.ltb_lt; lia).
  rewrite H32. reflexivity.
Qed.

(** With 32 characters or more the result is decided by the two [int]
    calls. *)
Lemma extract_long (raw : string) :
  is_ack raw = false -> (32 <= len raw)%nat ->
  extract_group_address raw =
    try_except
      (byte1 <- int16 (slice raw 28 30) ;;
       byte2 <- int16 (slice raw 30 32) ;;
       Ok (group_address_string (Z.shiftr (Z.land byte1 240) 4)
                                (Z.land byte1 15) byte2))
      (fun _ => Ok EmptyString).
Proof.
  unfold is_ack, extract_group_address, extract_group_address_body.
  intros -> Hlen.
  assert (H28 : (len raw <? 28)%nat = false) by (apply Nat.ltb_ge; lia).
  assert (H32 : (len raw <? 28 + 4)%nat = false) by (apply Nat.ltb_ge; lia).
  rewrite H28, H32. reflexivity.
Qed.

Lemma extract_parsed (raw : string) (byte1 byte2 : Z) :
  is_ack raw = false -> (32 <= len raw)%nat ->
  int16 (slice raw 28 30) = Ok byte1 -> int16 (slice raw 30 32) = Ok byte2 ->
  extract_group_address raw =
    Ok (group_address_string (Z.land (Z.shiftr byte1 4) 15) (Z.land byte1 15) byte2).
Proof.
  intros Hack Hlen H1 H2. rewrite (extract_long raw Hack Hlen), H1, H2.
  simpl. now rewrite haupt_as_shift_then_mask.
Qed.

Lemma extract_unparsed (raw : string) :
  is_ack raw = false -> (32 <= len raw)%nat ->
  (exists e, int16 (slice raw 28 30) = Raise e) \/
  (exists e, int16 (slice raw 30 32) = Raise e) ->
  extract_group_address raw = Ok EmptyString.
Proof.
  intros Hack Hlen H. rewrite (extract_long raw Hack Hlen).
  destruct H as [[e H]|[e H]]; rewrite H; simpl; [reflexivity|].
  destruct (int16 (slice raw 28 30)); reflexivity.
Qed.

(** The four characters at offset 28 of a frame that has them. *)
Lemma frame_destination (raw : string) :
  (32 <= len raw)%nat ->
  exists h c1 c2 c3 c4 tl,
    raw = h ++ String c1 (String c2 (String c3 (String c4 tl))) /\
    len h = 28%nat /\
    slice raw 28 30 = String c1 (String c2 EmptyString) /\
    slice raw 30 32 = String c3 (String c4 EmptyString) /\
    slice raw 28 32 = String c1 (String c2 (String c3 (String c4 EmptyString))).
Proof.
  intros Hlen.
  destruct (split_at 28 raw) as (h & t & -> & Hh); [lia|].
  rewrite len_app, Hh in Hlen.
  destruct t as [|c1 [|c2 [|c3 [|c4 tl]]]]; simpl in Hlen; try lia.
  assert (Hs : forall a m s, substring (28 + a) m (h ++ s) = substring a m s)
    by (intros; rewrite <- Hh; apply substring_skip).
  exists h, c1, c2, c3, c4, tl. unfold slice.
  repeat split; try assumption.
  - rewrite (Hs 0%nat). simpl. now destruct c3.
  - change 30%nat with (28 + 2)%nat. rewrite Hs. now destruct tl.
  - rewrite (Hs 0%nat). now destruct tl.
Qed.

Lemma string_forallb_app (p : ascii -> bool) (a b : string) :
  string_forallb p (a ++ b) = string_forallb p a && string_forallb p b.
Proof.
  induction a as [|c a IH]; simpl; [reflexivity | now rewrite IH, andb_assoc].
Qed.

Lemma is_hex_char_digit (c : ascii) :
  is_hex_char c = true -> exists d, hex_digit c = Some d.
Proof.
  unfold is_hex_char. destruct (hex_digit c) as [d|]; [eauto | discriminate].
Qed.

(** A rendered group address is never the text IGNORE: it has a slash. *)
Lemma has_char_app_l (c : ascii) (a b : string) :
  has_char c b = true -> has_char c (a ++ b) = true.
Proof.
  intros H. induction a as [|x a IH]; simpl; [exact H | now rewrite IH, orb_true_r].
Qed.

Lemma group_address_string_not_ignore (haupt mittel unter : Z) :
  group_address_string haupt mittel unter <> "IGNORE".
Proof.
  intros E.
  assert (H : has_char "/" (group_address_string haupt mittel unter) = true)
    by (unfold group_address_string; apply has_char_app_l; reflexivity).
  rewrite E in H. discriminate H.
Qed.

Lemma get_physical_address_cases (raw : string) :
  exists pa, get_physical_address raw = Ok pa /\
    (pa = EmptyString \/
     exists byte1 byte2,
       int16 (slice raw 24 26) = Ok byte1 /\ int16 (slice raw 26 28) = Ok byte2 /\
       pa = physical_address_string (Z.land (Z.shiftr byte1 4) 15)
                                    (Z.land byte1 15) byte2).
Proof.
  unfold get_physical_address, get_physical_address_body.
  destruct (endswith raw "CC"); [eexists; split; [reflexivity | now left]|].
  destruct (len raw <? 26)%nat; [eexists; split; [reflexivity | now left]|].
  change (24 + 2)%nat with 26%nat. change (24 + 4)%nat with 28%nat.
  destruct (int16 (slice raw 24 26)) as [b1|e1]; simpl;
    [|eexists; split; [reflexivity | now left]].
  destruct (int16 (slice raw 26 28)) as [b2|e2]; simpl;
    [|eexists; split; [reflexivity | now left]].
  eexists; split; [reflexivity|]. right. exists b1, b2.
  rewrite haupt_as_shift_then_mask. repeat split.
Qed.

Lemma extract_group_address_cases (raw : string) :
  exists ga, extract_group_address raw = Ok ga /\
    (ga = "IGNORE" \/ ga = EmptyString \/
     exists byte1 byte2,
       int16 (slice raw 28 30) = Ok byte1 /\ int16 (slice raw 30 32) = Ok byte2 /\
       ga = group_address_string (Z.land (Z.shiftr byte1 4) 15)
                                 (Z.land byte1 15) byte2).
Proof.
  destruct (is_ack raw) eqn:Hack.
  - exists "IGNORE". split; [now apply extract_ack | now left].
  - destruct (Nat.lt_ge_cases (len raw) 32) as [Hlt|Hge].
    + exists "IGNORE". split; [now apply extract_short | now left].
    + destruct (int16 (slice raw 28 30)) as [b1|e1] eqn:H1.
      * destruct (int16 (slice raw 30 32)) as [b2|e2] eqn:H2.
        -- eexists. split; [now apply (extract_parsed raw b1 b2)|].
           right; right. now exists b1, b2.
        -- exists EmptyString. split; [|right; now left].
           apply extract_unparsed; eauto.
      * exists EmptyString. split; [|right; now left].
        apply extract_unparsed; eauto.
Qed.

(** C3. For a raw string that is no acknowledgement: below 32 characters
    (and so below 28) the result is the text IGNORE; from 32 characters on
    the two bytes read at offset 28 give main = (byte1 >> 4) & 0xF,
    middle = byte1 & 0xF, sub = byte2, rendered main/middle/sub; on a
    string of hexadecimal digits both bytes are read, each below 256; the
    digits 2305 at offset 28 give 2/3/5. *)
Theorem extract_group_address_decodes (raw : string) :
  is_ack raw = false ->
  ((len raw < 32)%nat -> extract_group_address raw = Ok "IGNORE") /\
  ((32 <= len raw)%nat ->
   (forall byte1 byte2,
       int16 (slice raw 28 30) = Ok byte1 ->
       int16 (slice raw 30 32) = Ok byte2 ->
       extract_group_address raw =
         Ok (group_address_string (Z.land (Z.shiftr byte1 4) 15)
                                  (Z.land byte1 15) byte2)) /\
   (is_hex_string raw = true ->
    exists byte1 byte2,
      (0 <= byte1 < 256)%Z /\ (0 <= byte2 < 256)%Z /\
      int16 (slice raw 28 30) = Ok byte1 /\
      int16 (slice raw 30 32) = Ok byte2 /\
      extract_group_address raw =
        Ok (group_address_string (Z.land (Z.shiftr byte1 4) 15)
                                 (Z.land byte1 15) byte2)) /\
   (slice raw 28 32 = "2305" -> extract_group_address raw = Ok "2/3/5")).
Proof.
  intros Hack. split; [now apply extract_short|].
  intros Hlen. split; [|split].
  - intros b1 b2. now apply extract_parsed.
  - intros Hhex.
    destruct (frame_destination raw Hlen)
      as (h & c1 & c2 & c3 & c4 & tl & -> & _ & S1 & S2 & _).
    unfold is_hex_string in Hhex. rewrite string_forallb_app in Hhex. simpl in Hhex.
    apply andb_prop in Hhex as [_ Hhex].
    apply andb_prop in Hhex as [X1 Hhex]. apply andb_prop in Hhex as [X2 Hhex].
    apply andb_prop in Hhex as [X3 Hhex]. apply andb_prop in Hhex as [X4 _].
    destruct (is_hex_char_digit _ X1) as [d1 D1].
    destruct (is_hex_char_digit _ X2) as [d2 D2].
    destruct (is_hex_char_digit _ X3) as [d3 D3].
    destruct (is_hex_char_digit _ X4) as [d4 D4].
    pose proof (hex_digit_range _ _ D1). pose proof (hex_digit_range _ _ D2).
    pose proof (hex_digit_range _ _ D3). pose proof (hex_digit_range _ _ D4).
    exists (16 * d1 + d2)%Z, (16 * d3 + d4)%Z.
    assert (P1 : int16 (slice (h ++ String c1 (String c2 (String c3 (String c4 tl))))
                              28 30) = Ok (16 * d1 + d2)%Z)
      by (rewrite S1; now apply int16_hex_pair).
    assert (P2 : int16 (slice (h ++ String c1 (String c2 (String c3 (String c4 tl))))
                              30 32) = Ok (16 * d3 + d4)%Z)
      by (rewrite S2; now apply int16_hex_pair).
    repeat split; try lia; try assumption.
    now apply extract_parsed.
  - intros E.
    destruct (frame_destination raw Hlen)
      as (h & c1 & c2 & c3 & c4 & tl & Hraw & _ & S1 & S2 & S4).
    rewrite S4 in E. injection E as -> -> -> ->.
    rewrite (extract_parsed raw 35 5 Hack Hlen); [reflexivity | |].
    + now rewrite S1.
    + now rewrite S2.
Qed.

(** A 40-character data frame with destination bytes 23 05. *)
Lemma extract_group_address_decodes_witness :
  extract_group_address (data_frame "1105" "2305") = Ok "2/3/5".
Proof.
  destruct (extract_group_address_decodes (data_frame "1105" "2305") eq_refl)
    as [_ H].
  destruct H as (_ & _ & H); [vm_compute; lia|].
  apply H. reflexivity.
Defined.

(** Against C3 as stated: a frame of exactly 28 characters is not shorter
    than 28, and the decoder still answers IGNORE, which is no rendered
    address. *)
Lemma extract_group_address_length_28 :
  is_ack frame28 = false /\
  len frame28 = 28%nat /\
  extract_group_address frame28 = Ok "IGNORE" /\
  (forall haupt mittel unter,
      extract_group_address frame28 <> Ok (group_address_string haupt mittel unter)).
Proof.
  repeat split.
  intros h m u E. change (extract_group_address frame28) with (@Ok string "IGNORE") in E.
  injection E as E. symmetry in E. now apply group_address_string_not_ignore in E.
Qed.

(** C4. Both decoders return on every string: the group address decoder
    gives IGNORE, the empty string or a rendered address, the physical
    address decoder gives the empty string or a rendered address, and the
    main and middle parts of a rendered address lie in 0..15. No exception
    leaves either. Equal arguments give equal results. *)
Theorem decoders_total_and_deterministic (raw : string) :
  (exists ga, extract_group_address raw = Ok ga /\
     (ga = "IGNORE" \/ ga = EmptyString \/
      exists haupt mittel unter,
        (0 <= haupt <= 15)%Z /\ (0 <= mittel <= 15)%Z /\
        ga = group_address_string haupt mittel unter)) /\
  (exists pa, get_physical_address raw = Ok pa /\
     (pa = EmptyString \/
      exists haupt linie teilnehmer,
        (0 <= haupt <= 15)%Z /\ (0 <= linie <= 15)%Z /\
        pa = physical_address_string haupt linie teilnehmer)) /\
  (forall raw', raw' = raw ->
     extract_group_address raw' = extract_group_address raw /\
     get_physical_address raw' = get_physical_address raw).
Proof.
  split; [|split].
  - destruct (extract_group_address_cases raw) as (ga & H & [E|[E|(b1 & b2 & _ & _ & E)]]);
      exists ga; (split; [exact H|]); auto.
    right; right. eexists _, _, _. split; [|split; [|exact E]]; apply nibble_range.
  - destruct (get_physical_address_cases raw) as (pa & H & [E|(b1 & b2 & _ & _ & E)]);
      exists pa; (split; [exact H|]); auto.
    right. eexists _, _, _. split; [|split; [|exact E]]; apply nibble_range.
  - intros raw' ->. split; reflexivity.
Qed.

(** Without the [try] the bodies do raise: [int] on the destination bytes
    ZZ, and on the missing second source byte of a 26-character frame. *)
Lemma decoder_bodies_raise :
  extract_group_address_body frame_malformed = Raise ValueError /\
  extract_group_address frame_malformed = Ok EmptyString /\
  get_physical_address_body (sample_header ++ "BC11") = Raise ValueError /\
  get_physical_address (sample_header ++ "BC11") = Ok EmptyString.
Proof.
  repeat split.
Qed.

(** C5. The decoder has two results that are no address, the text IGNORE
    and the empty string. IGNORE is the answer for every acknowledgement
    and for every other frame of fewer than 32 characters; the empty string
    is the answer exactly when a frame that is no acknowledgement has 32
    characters or more and [int] raises on one of its destination bytes.
    The two differ. *)
Theorem extract_group_address_sentinels (raw : string) :
  (is_ack raw = true -> extract_group_address raw = Ok "IGNORE") /\
  (is_ack raw = false -> (len raw < 32)%nat ->
   extract_group_address raw = Ok "IGNORE") /\
  (extract_group_address raw = Ok EmptyString <->
   is_ack raw = false /\ (32 <= len raw)%nat /\
   ((exists e, int16 (slice raw 28 30) = Raise e) \/
    (exists e, int16 (slice raw 30 32) = Raise e))) /\
  @Ok string "IGNORE" <> Ok EmptyString.
Proof.
  split; [apply extract_ack|]. split; [apply extract_short|].
  split; [|discriminate].
  split.
  - intros E. destruct (is_ack raw) eqn:Hack.
    + rewrite (extract_ack raw Hack) in E. discriminate E.
    + split; [reflexivity|].
      destruct (Nat.lt_ge_cases (len raw) 32) as [Hlt|Hge].
      * rewrite (extract_short raw Hack Hlt) in E. discriminate E.
      * split; [exact Hge|].
        destruct (int16 (slice raw 28 30)) as [b1|e1] eqn:H1; [|left; eauto].
        destruct (int16 (slice raw 30 32)) as [b2|e2] eqn:H2; [|right; eauto].
        rewrite (extract_parsed raw b1 b2 Hack Hge H1 H2) in E.
        injection E as E. exfalso.
        assert (H : has_char "/" (group_address_string (Z.land (Z.shiftr b1 4) 15)
                                    (Z.land b1 15) b2) = true)
          by (unfold group_address_string; apply has_char_app_l; reflexivity).
        rewrite E in H. discriminate H.
  - intros (Hack & Hlen & H). now apply extract_unparsed.
Qed.

(** The three kinds of frame, one each. *)
Lemma extract_group_address_sentinels_witness :
  extract_group_address ack_frame = Ok "IGNORE" /\
  extract_group_address frame20 = Ok "IGNORE" /\
  extract_group_address frame_malformed = Ok EmptyString.
Proof.
  destruct (extract_group_address_sentinels ack_frame) as (Hack & _).
  destruct (extract_group_address_sentinels frame20) as (_ & Hshort & _).
  destruct (extract_group_address_sentinels frame_malformed) as (_ & _ & Hbad & _).
  split; [|split].
  - apply Hack. reflexivity.
  - apply Hshort; [reflexivity | vm_compute; lia].
  - apply Hbad. split; [reflexivity|]. split; [vm_compute; lia|].
    left. exists ValueError. reflexivity.
Defined.

(** Against C5 as stated: an acknowledgement and a too short frame that is
    no acknowledgement get the same answer, so the answer does not tell
    them apart. *)
Lemma ack_and_short_frame_share_sentinel :
  is_ack ack_frame = true /\
  is_ack frame20 = false /\ (len frame20 < 28)%nat /\
  extract_group_address ack_frame = extract_group_address frame20.
Proof.
  repeat split. vm_compute. lia.
Qed.

(** ** The filter list *)

Lemma fold_add_filter (gas : list string) : forall acc,
  fold_left add_filter gas acc =
    (acc ++ map normalize_one
              (filter (fun ga => negb (ga =? EmptyString)) gas))%list.
Proof.
  induction gas as [|ga gas IH]; intros acc; simpl.
  - now rewrite app_nil_r.
  - rewrite IH. unfold add_filter at 1.
    destruct (ga =? EmptyString); simpl; [reflexivity|].
    now rewrite <- app_assoc.
Qed.

Lemma normalize_filters_map (gas : list string) :
  normalize_filters gas =
    map normalize_one (filter (fun ga => negb (ga =? EmptyString)) gas).
Proof.
  unfold normalize_filters. now rewrite fold_add_filter.
Qed.

Lemma endswith_slash_added (a : string) : endswith (a ++ "/") "/" = true.
Proof.
  unfold endswith. rewrite len_app. simpl len.
  replace (len a + 1 - 1)%nat with (len a + 0)%nat by lia.
  rewrite substring_skip.
  replace (1 <=? len a + 1)%nat with true by (symmetry; apply Nat.leb_le; lia).
  reflexivity.
Qed.

Lemma normalize_filters_end_with_slash (gas : list string) :
  Forall (fun f => endswith f "/" = true) (normalize_filters gas).
Proof.
  rewrite normalize_filters_map. apply Forall_forall. intros f Hf.
  apply in_map_iff in Hf as (ga & <- & _). unfold normalize_one.
  destruct (endswith ga "/") eqn:E; [exact E | apply endswith_slash_added].
Qed.

Lemma get_physical_address_short (raw : string) :
  (len raw < 26)%nat -> get_physical_address raw = Ok EmptyString.
Proof.
  intros H. unfold get_physical_address, get_physical_address_body.
  destruct (endswith raw "CC"); [reflexivity|].
  apply Nat.ltb_lt in H. now rewrite H.
Qed.

(** A telegram the decoder finds an address in is neither skipped nor an
    acknowledgement. *)
Lemma decoded_is_data (raw ga : string) :
  extract_group_address raw = Ok ga -> ga <> "IGNORE" ->
  raw <> EmptyString /\ is_ack raw = false.
Proof.
  intros H Hn. split.
  - intros ->. apply Hn. vm_compute in H. now injection H as <-.
  - destruct (is_ack raw) eqn:Hack; [|reflexivity].
    rewrite (extract_ack raw Hack) in H. exfalso. apply Hn. now injection H as <-.
Qed.

(** C6. A telegram that reaches the decoder (non-empty raw frame, no
    acknowledgement) and gets IGNORE or the empty string from it is
    appended to the filtered collection, whatever the filters are; its
    comment is the text GA: IGNORE (unbestimmt) ; QA: followed by the
    physical address, between the comment delimiters; the physical address
    is decoded on its own and is empty below 26 characters; the other
    collection is left alone, [last_destination] becomes filtered and no
    exception is raised. *)
Theorem undecodable_goes_to_filtered
    (fl : list string) (st : loop_state) (t : telegram) (ga : string) :
  raw_of t <> EmptyString ->
  is_ack (raw_of t) = false ->
  extract_group_address (raw_of t) = Ok ga ->
  ga = "IGNORE" \/ ga = EmptyString ->
  exists pa st',
    get_physical_address (raw_of t) = Ok pa /\
    ((len (raw_of t) < 26)%nat -> pa = EmptyString) /\
    loop_body fl st t = Ok st' /\
    filtered_telegrams st' = (filtered_telegrams st ++ [t])%list /\
    filtered_comments st' =
      (filtered_comments st
         ++ [("<!-- " ++ ("GA: IGNORE (unbestimmt) ; QA: " ++ pa) ++ " -->")%string])%list /\
    other_telegrams st' = other_telegrams st /\
    other_comments st' = other_comments st /\
    last_destination st' = Some Filtered.
Proof.
  intros Hne Hack Hga Hsent.
  destruct (get_physical_address_total (raw_of t)) as [pa Hpa].
  exists pa. eexists. split; [exact Hpa|]. split.
  - intros Hlen. rewrite (get_physical_address_short _ Hlen) in Hpa.
    now injection Hpa as <-.
  - split; [now apply (loop_body_ignore fl st t ga pa)|].
    unfold make_comment. simpl. repeat split.
Qed.

(** A frame of 20 characters, first telegram of a run. *)
Lemma undecodable_goes_to_filtered_witness :
  exists st',
    loop_body ["1/2/"] initial_state (sample_telegram frame20) = Ok st' /\
    filtered_telegrams st' = [sample_telegram frame20] /\
    filtered_comments st' = ["<!-- GA: IGNORE (unbestimmt) ; QA:  -->"] /\
    other_telegrams st' = [] /\
    last_destination st' = Some Filtered.
Proof.
  destruct (undecodable_goes_to_filtered ["1/2/"] initial_state
              (sample_telegram frame20) "IGNORE")
    as (pa & st' & _ & Hpa & Hb & Hf & Hc & Ho & _ & Hd).
  - discriminate.
  - reflexivity.
  - reflexivity.
  - now left.
  - exists st'. rewrite Hpa in Hc by (vm_compute; lia).
    repeat split; assumption.
Defined.

(** C7. The filter list built from the given group addresses holds only
    entries that end with a slash. A telegram with a decoded group address
    is appended to the filtered collection when some entry is a prefix of
    the rendered address, and to the other collection when none is; its
    comment holds the address, and [last_destination] follows. The entry
    1/2/ is a prefix of 1/2/5 and not of 1/20/5. *)
Theorem filter_is_prefix_match
    (group_addresses : list string) (st : loop_state) (t : telegram) (ga : string) :
  extract_group_address (raw_of t) = Ok ga ->
  ga <> "IGNORE" -> ga <> EmptyString ->
  Forall (fun f => endswith f "/" = true) (normalize_filters group_addresses) /\
  (exists pa st',
      get_physical_address (raw_of t) = Ok pa /\
      loop_body (normalize_filters group_addresses) st t = Ok st' /\
      (((exists f, In f (normalize_filters group_addresses) /\ prefix f ga = true) /\
        filtered_telegrams st' = (filtered_telegrams st ++ [t])%list /\
        filtered_comments st' = (filtered_comments st ++ [make_comment ga pa])%list /\
        other_telegrams st' = other_telegrams st /\
        last_destination st' = Some Filtered)
       \/
       ((forall f, In f (normalize_filters group_addresses) -> prefix f ga = false) /\
        other_telegrams st' = (other_telegrams st ++ [t])%list /\
        other_comments st' = (other_comments st ++ [make_comment ga pa])%list /\
        filtered_telegrams st' = filtered_telegrams st /\
        last_destination st' = Some Other))) /\
  prefix "1/2/" "1/2/5" = true /\ prefix "1/2/" "1/20/5" = false.
Proof.
  intros Hga Hn1 Hn2.
  destruct (decoded_is_data _ _ Hga Hn1) as [Hne Hack].
  split; [apply normalize_filters_end_with_slash|].
  split; [|split; reflexivity].
  destruct (get_physical_address_total (raw_of t)) as [pa Hpa].
  exists pa. eexists. split; [exact Hpa|].
  split; [now apply (loop_body_data _ st t ga pa)|].
  unfold matches_filter, startswith.
  destruct (existsb (fun f => prefix f ga) (normalize_filters group_addresses)) eqn:E.
  - left. apply existsb_exists in E. split; [exact E | repeat split].
  - right. split; [|repeat split].
    intros f Hf. destruct (prefix f ga) eqn:P; [|reflexivity].
    assert (X : existsb (fun f => prefix f ga) (normalize_filters group_addresses) = true)
      by (apply existsb_exists; eauto).
    rewrite X in E. discriminate E.
Qed.

(** The filter given as 1/2: the telegram for 1/2/5 is kept, the one for
    1/15/5 is not. *)
Lemma filter_is_prefix_match_witness :
  normalize_filters ["1/2"] = ["1/2/"] /\
  (exists st',
      loop_body (normalize_filters ["1/2"]) initial_state
                (sample_telegram (data_frame "1105" "1205")) = Ok st' /\
      filtered_telegrams st' = [sample_telegram (data_frame "1105" "1205")] /\
      filtered_comments st' = ["<!-- GA: 1/2/5 ; QA: 1.1.5 -->"]) /\
  (exists st',
      loop_body (normalize_filters ["1/2"]) initial_state
                (sample_telegram (data_frame "1105" "1F05")) = Ok st' /\
      other_telegrams st' = [sample_telegram (data_frame "1105" "1F05")] /\
      other_comments st' = ["<!-- GA: 1/15/5 ; QA: 1.1.5 -->"]).
Proof.
  split; [reflexivity|]. split.
  - destruct (filter_is_prefix_match ["1/2"] initial_state
                (sample_telegram (data_frame "1105" "1205")) "1/2/5")
      as (_ & (pa & st' & Hpa & Hb & Hside) & _);
      [reflexivity | discriminate | discriminate |].
    exists st'. split; [exact Hb|].
    vm_compute in Hpa. injection Hpa as <-.
    destruct Hside as [(_ & Hf & Hc & _)|(Hnone & _)].
    + split; assumption.
    + specialize (Hnone "1/2/" (or_introl eq_refl)). discriminate Hnone.
  - destruct (filter_is_prefix_match ["1/2"] initial_state
                (sample_telegram (data_frame "1105" "1F05")) "1/15/5")
      as (_ & (pa & st' & Hpa & Hb & Hside) & _);
      [reflexivity | discriminate | discriminate |].
    exists st'. split; [exact Hb|].
    vm_compute in Hpa. injection Hpa as <-.
    destruct Hside as [((f & Hf & Hp) & _)|(_ & Ho & Hc & _)].
    + destruct Hf as [<-|[]]. discriminate Hp.
    + split; assumption.
Defined.

(** ** The file name *)

Lemma replace_slash (s : string) :
  replace s "/" "_" =
    string_of_list_ascii (map slash_to_underscore (list_ascii_of_string s)).
Proof.
  unfold replace. induction s as [|c s IH]; [reflexivity|].
  cbn [replace_go prefix list_ascii_of_string map string_of_list_ascii len
       String.length Nat.sub append].
  destruct (ascii_dec "/" c) as [<-|Hn].
  - replace (prefix EmptyString s) with true by (now destruct s).
    rewrite IH. reflexivity.
  - assert (E : slash_to_underscore c = c).
    { unfold slash_to_underscore.
      destruct (Ascii.eqb_spec c "/") as [->|_]; [now elim Hn | reflexivity]. }
    now rewrite IH, E.
Qed.

Lemma lstrip_by_list (p : ascii -> bool) (s : string) :
  lstrip_by p s = string_of_list_ascii (drop_while p (list_ascii_of_string s)).
Proof.
  induction s as [|c s IH]; [reflexivity|]. simpl.
  destruct (p c); [exact IH|]. simpl. now rewrite string_of_list_ascii_of_string.
Qed.

Lemma drop_while_app (p : ascii -> bool) (a b : list ascii) :
  drop_while p (a ++ b)%list =
    match drop_while p a with
    | [] => drop_while p b
    | r => (r ++ b)%list
    end.
Proof.
  induction a as [|c a IH]; simpl.
  - now destruct (drop_while p b).
  - destruct (p c); [exact IH | reflexivity].
Qed.

Lemma rstrip_by_list (p : ascii -> bool) (s : string) :
  rstrip_by p s =
    string_of_list_ascii (rev (drop_while p (rev (list_ascii_of_string s)))).
Proof.
  induction s as [|c s IH]; [reflexivity|].
  simpl. rewrite IH, drop_while_app.
  destruct (drop_while p (rev (list_ascii_of_string s))) as [|x r] eqn:E.
  - simpl. now destruct (p c).
  - simpl drop_while. rewrite rev_app_distr. simpl.
    destruct (rev r ++ [x])%list as [|y l] eqn:E'.
    + now destruct (rev r).
    + reflexivity.
Qed.

Lemma filename_part_spec (ga : string) :
  filename_part ga = spec_filename_part ga.
Proof.
  unfold filename_part, spec_filename_part, strip_char, strip_by.
  rewrite rstrip_by_list, lstrip_by_list, replace_slash.
  now rewrite !list_ascii_of_string_of_list_ascii.
Qed.

Lemma filename_of_filters_spec (fl : list string) :
  filename_of_filters fl = spec_filename fl.
Proof.
  unfold filename_of_filters, spec_filename, join.
  destruct fl as [|f fl]; [reflexivity|].
  rewrite (map_ext _ _ filename_part_spec). reflexivity.
Qed.

(** C9. The name of the filtered file is that function of the normalized
    filter list: slashes to underscores, underscores off both ends of each
    entry, entries joined by a hyphen, between knx_tel_ and .xml; it is
    knx_tel_all.xml when the list is empty, and knx_tel_0_7-1_2.xml for
    the filters 0/7/ and 1/2/. *)
Theorem output_filename_of_filters
    (input_file : string) (group_addresses : list string) (discard : bool) :
  output_filename (KNXSplitter_init input_file group_addresses discard)
    = spec_filename (filter_list (KNXSplitter_init input_file group_addresses discard)) /\
  filter_list (KNXSplitter_init input_file group_addresses discard)
    = normalize_filters group_addresses /\
  output_filename (KNXSplitter_init input_file [] discard) = "knx_tel_all.xml" /\
  output_filename (KNXSplitter_init input_file ["0/7/"; "1/2/"] discard)
    = "knx_tel_0_7-1_2.xml".
Proof.
  split; [|repeat split]. simpl. apply filename_of_filters_spec.
Qed.

(** ** [insert_comments]: the written line *)

Lemma pad_telegram_part_spaces (tp : string) :
  pad_telegram_part tp = tp ++ spaces (161 - len tp).
Proof.
  unfold pad_telegram_part.
  destruct (0 <? 165 - (Z.of_nat (len tp) + 4))%Z eqn:E.
  - apply Z.ltb_lt in E. f_equal. f_equal. lia.
  - apply Z.ltb_ge in E. replace (161 - len tp)%nat with 0%nat by lia.
    simpl. now rewrite app_empty_r.
Qed.

Lemma len_pad_telegram_part (tp : string) :
  len (pad_telegram_part tp) = Nat.max (len tp) 161.
Proof.
  rewrite pad_telegram_part_spaces, len_app, len_spaces. lia.
Qed.

(** The line written for a telegram with a comment that splits at a
    semicolon. *)
Lemma with_comment_eq (tp c ga qa : string) (more : list string) :
  split (replace c opener EmptyString) ";" = ga :: qa :: more ->
  with_comment tp c =
    Ok ("    " ++ pad_telegram_part tp
        ++ (if (0 <? semicolon_gap tp (strip ga))%nat
            then opener ++ (strip ga ++ spaces (semicolon_gap tp (strip ga)))
                        ++ "; " ++ strip qa
            else replace c opener EmptyString)
        ++ String newline EmptyString).
Proof.
  intros Hs. unfold with_comment. fold opener. rewrite Hs.
  unfold list_index. cbn [nth_error Exn.bind]. unfold semicolon_gap.
  set (p := pad_telegram_part tp). set (g := strip ga).
  destruct (0 <? 183 - (Z.of_nat (len p) + 4 + 5 + Z.of_nat (len g)))%Z eqn:E.
  - apply Z.ltb_lt in E.
    replace (0 <? 183 - (4 + len p + 5 + len g))%nat with true
      by (symmetry; apply Nat.ltb_lt; lia).
    replace (Z.to_nat (183 - (Z.of_nat (len p) + 4 + 5 + Z.of_nat (len g))))
      with (183 - (4 + len p + 5 + len g))%nat by lia.
    reflexivity.
  - apply Z.ltb_ge in E.
    replace (0 <? 183 - (4 + len p + 5 + len g))%nat with false
      by (symmetry; apply Nat.ltb_ge; lia).
    reflexivity.
Qed.

(** The first piece of a split is the beginning of the string. *)
Lemma split_go_first (sep : string) (s : string) : forall cur p0 rest,
  split_go sep 0 cur s = p0 :: rest ->
  exists q, p0 = cur ++ q /\ prefix q s = true.
Proof.
  induction s as [|c s IH]; intros cur p0 rest H; cbn [split_go] in H.
  - injection H as <- _. exists EmptyString. now rewrite app_empty_r.
  - destruct (prefix sep (String c s)).
    + injection H as <- _. exists EmptyString. now rewrite app_empty_r.
    + destruct (IH _ _ _ H) as (q & -> & Hq).
      exists (String c q). rewrite app_assoc_s. split; [reflexivity|].
      simpl. destruct (ascii_dec c c) as [_|N]; [exact Hq | now elim N].
Qed.

Lemma lstrip_first (s : string) (c : ascii) (r : string) :
  lstrip s = String c r -> isspace c = false.
Proof.
  unfold lstrip. induction s as [|a s IH]; simpl; [discriminate|].
  destruct (isspace a) eqn:E; [exact IH|].
  intros H. injection H as <- _. exact E.
Qed.

(** The rewritten telegram starts with a character that is no white
    space, so the four spaces before it are the whole indentation. *)
Lemma self_closing_first (line part0 part1 rawdata_part : string) :
  split (lstrip line) rawdata_open = [part0; part1] ->
  exists c r, self_closing part0 rawdata_part = String c r /\ isspace c = false.
Proof.
  intros H. unfold split in H.
  destruct (split_go_first _ _ _ _ _ H) as (q & Hq & Hp). simpl in Hq. subst q.
  unfold self_closing. destruct part0 as [|c p].
  - eexists _, _. split; reflexivity.
  - exists c. eexists. split; [reflexivity|].
    destruct (lstrip line) as [|a l] eqn:E; [discriminate Hp|].
    simpl in Hp. destruct (ascii_dec c a) as [->|]; [|discriminate Hp].
    now apply (lstrip_first _ _ _ E).
Qed.

(** The body of the loop on a telegram line. *)
Lemma insert_comment_line_telegram
    (comments : list string) (idx : nat) (line part0 part1 rawdata_part : string)
    (rest : list string) :
  contains "<Telegram" line = true -> contains "</Telegram>" line = true ->
  split (lstrip line) rawdata_open = [part0; part1] ->
  split part1 (String dquote EmptyString) = rawdata_part :: rest ->
  insert_comment_line comments idx line =
    match nth_error comments idx with
    | Some (String c0 c') =>
        new_line <- with_comment (self_closing part0 rawdata_part) (String c0 c') ;;
        Ok (new_line, S idx)
    | _ => Ok ("    " ++ self_closing part0 rawdata_part ++ String newline EmptyString,
               S idx)
    end.
Proof.
  intros H1 H2 H3 H4. unfold insert_comment_line.
  rewrite H1, H2, H3, H4. reflexivity.
Qed.

Lemma prefix_app (a b : string) : prefix a (a ++ b) = true.
Proof.
  induction a as [|c a IH]; simpl; [now destruct b|].
  destruct (ascii_dec c c) as [_|N]; [exact IH | now elim N].
Qed.

Lemma has_char_app (c : ascii) (a b : string) :
  has_char c (a ++ b) = has_char c a || has_char c b.
Proof.
  induction a as [|x a IH]; simpl; [reflexivity | now rewrite IH, orb_assoc].
Qed.

(** [replace] finds nothing to replace where the first character of
    [old] does not occur. *)
Lemma replace_go_absent (c : ascii) (old' new s : string) :
  has_char c s = false -> replace_go (String c old') new 0 s = s.
Proof.
  induction s as [|a s IH]; [reflexivity|]. simpl.
  intros H. apply orb_false_elim in H as [Ha Hs].
  destruct (ascii_dec c a) as [->|_].
  - now rewrite Ascii.eqb_refl in Ha.
  - now rewrite (IH Hs).
Qed.

Lemma replace_opener (body : string) :
  has_char "<" body = false ->
  replace (opener ++ body) opener EmptyString = body.
Proof.
  intros H. unfold replace, opener. cbn [append replace_go].
  replace (prefix "<!-- " (String "<" (String "!" (String "-" (String "-"
            (String " " body)))))) with true
    by (symmetry; apply (prefix_app "<!-- ")).
  cbn. now apply (replace_go_absent "<" "!-- ").
Qed.

Lemma prefix_absent (c : ascii) (x s : string) :
  has_char c s = false -> prefix (String c x) s = false.
Proof.
  destruct s as [|a s]; [reflexivity|]. simpl.
  intros H. apply orb_false_elim in H as [Ha _].
  destruct (ascii_dec c a) as [->|_]; [|reflexivity].
  now rewrite Ascii.eqb_refl in Ha.
Qed.

Lemma contains_absent (c : ascii) (x s : string) :
  has_char c s = false -> contains (String c x) s = false.
Proof.
  induction s as [|a s IH]; [reflexivity|]. simpl.
  intros H. apply orb_false_elim in H as [Ha Hs].
  destruct (ascii_dec c a) as [->|_].
  - now rewrite Ascii.eqb_refl in Ha.
  - now apply IH.
Qed.

(** What becomes of the opener: [body] is the comment without it. *)
Lemma with_comment_opener (tp body ga qa : string) (more : list string) :
  has_char "<" body = false ->
  split body ";" = ga :: qa :: more ->
  (semicolon_gap tp (strip ga) = 0%nat ->
   with_comment tp (opener ++ body) =
     Ok ("    " ++ pad_telegram_part tp ++ body ++ String newline EmptyString)) /\
  ((0 < semicolon_gap tp (strip ga))%nat ->
   with_comment tp (opener ++ body) =
     Ok ("    " ++ pad_telegram_part tp
         ++ (opener ++ (strip ga ++ spaces (semicolon_gap tp (strip ga)))
                    ++ "; " ++ strip qa)
         ++ String newline EmptyString)).
Proof.
  intros Hlt Hs.
  pose proof (replace_opener body Hlt) as Hr.
  assert (Hs' : split (replace (opener ++ body) opener EmptyString) ";"
                = ga :: qa :: more) by now rewrite Hr.
  rewrite (with_comment_eq tp _ ga qa more Hs'), Hr.
  split; intros Hg.
  - rewrite Hg. reflexivity.
  - apply Nat.ltb_lt in Hg. now rewrite Hg.
Qed.

Lemma split_go_cons (sep : string) (s : string) : forall skip cur,
  exists x l, split_go sep skip cur s = x :: l.
Proof.
  induction s as [|c s IH]; intros skip cur; cbn [split_go]; [eauto|].
  destruct skip; [|apply IH].
  destruct (prefix sep (String c s)); [eauto | apply IH].
Qed.

(** ** The comments the loop writes *)

Lemma string_of_uint_no_lt (u : Decimal.uint) :
  has_char "<" (NilEmpty.string_of_uint u) = false.
Proof.
  induction u; simpl; auto.
Qed.

Lemma str_of_int_no_lt (z : Z) : has_char "<" (str_of_int z) = false.
Proof.
  unfold str_of_int. destruct (Z.to_int z); simpl; apply string_of_uint_no_lt.
Qed.

Lemma physical_address_no_lt (raw pa : string) :
  get_physical_address raw = Ok pa -> has_char "<" pa = false.
Proof.
  intros H. destruct (get_physical_address_cases raw) as (pa' & H' & Hc).
  rewrite H in H'. injection H' as <-.
  destruct Hc as [->|(b1 & b2 & _ & _ & ->)]; [reflexivity|].
  unfold physical_address_string.
  rewrite !has_char_app, !str_of_int_no_lt. reflexivity.
Qed.

(** The comment of a telegram nothing was decoded for never keeps its
    opener: with 23 characters before the semicolon no gap is left. *)
Lemma ignore_comment_loses_opener (tp pa : string) :
  has_char "<" pa = false ->
  with_comment tp (make_comment "IGNORE (unbestimmt)" pa) =
    Ok ("    " ++ pad_telegram_part tp
        ++ ("GA: IGNORE (unbestimmt) ; QA: " ++ pa ++ " -->")
        ++ String newline EmptyString).
Proof.
  intros Hpa.
  set (body := "GA: IGNORE (unbestimmt) ; QA: " ++ pa ++ " -->").
  assert (Hbody : has_char "<" body = false).
  { unfold body. rewrite !has_char_app, Hpa. reflexivity. }
  destruct (split_go_cons ";" (" QA: " ++ pa ++ " -->") 0 EmptyString) as (qa & more & Hq).
  assert (Hs : split body ";" = "GA: IGNORE (unbestimmt) " :: qa :: more).
  { unfold split, body. cbn. cbn in Hq. now rewrite Hq. }
  destruct (with_comment_opener tp body _ qa more Hbody Hs) as [H0 _].
  change (make_comment "IGNORE (unbestimmt)" pa) with (opener ++ body).
  apply H0. unfold semicolon_gap. rewrite len_pad_telegram_part.
  change (len (strip "GA: IGNORE (unbestimmt) ")) with 23%nat. lia.
Qed.

(** C8. A telegram line (it holds [<Telegram] and [</Telegram>] and splits
    in two at its RawData attribute) is written as four spaces and the
    self-closing element, which starts with a character that is no white
    space. Without a comment, or with an empty one, nothing follows but
    the line end. With a comment the element is filled up with spaces, so
    that 165 characters stand before the comment when the element has at
    most 161; an element longer than that is kept whole and gets no
    padding. When there is a gap to fill, the comment is written as the
    opener, the group address field, the gap and the semicolon, and 183
    characters stand before the semicolon; when there is none, the comment
    follows as [replace] left it. *)
Theorem telegram_line_layout
    (comments : list string) (idx : nat)
    (line part0 part1 rawdata_part : string) (rest : list string) :
  contains "<Telegram" line = true ->
  contains "</Telegram>" line = true ->
  split (lstrip line) rawdata_open = [part0; part1] ->
  split part1 (String dquote EmptyString) = rawdata_part :: rest ->
  (exists c r, self_closing part0 rawdata_part = String c r /\ isspace c = false) /\
  (nth_error comments idx = None \/ nth_error comments idx = Some EmptyString ->
   insert_comment_line comments idx line =
     Ok ("    " ++ self_closing part0 rawdata_part ++ String newline EmptyString,
         S idx)) /\
  (forall c ga qa more,
      nth_error comments idx = Some c -> c <> EmptyString ->
      split (replace c opener EmptyString) ";" = ga :: qa :: more ->
      exists suffix,
        insert_comment_line comments idx line =
          Ok ("    " ++ pad_telegram_part (self_closing part0 rawdata_part)
              ++ suffix ++ String newline EmptyString, S idx) /\
        pad_telegram_part (self_closing part0 rawdata_part) =
          self_closing part0 rawdata_part
          ++ spaces (161 - len (self_closing part0 rawdata_part)) /\
        ((len (self_closing part0 rawdata_part) <= 161)%nat ->
         len ("    " ++ pad_telegram_part (self_closing part0 rawdata_part))
           = 165%nat) /\
        ((0 < semicolon_gap (self_closing part0 rawdata_part) (strip ga))%nat ->
         suffix =
           (opener ++ strip ga
            ++ spaces (semicolon_gap (self_closing part0 rawdata_part) (strip ga)))
           ++ "; " ++ strip qa /\
         len ("    " ++ pad_telegram_part (self_closing part0 rawdata_part)
              ++ opener ++ strip ga
              ++ spaces (semicolon_gap (self_closing part0 rawdata_part) (strip ga)))
           = 183%nat) /\
        (semicolon_gap (self_closing part0 rawdata_part) (strip ga) = 0%nat ->
         suffix = replace c opener EmptyString)).
Proof.
  intros H1 H2 H3 H4.
  pose proof (insert_comment_line_telegram comments idx line part0 part1
                rawdata_part rest H1 H2 H3 H4) as Hline.
  set (tp := self_closing part0 rawdata_part) in *.
  split; [exact (self_closing_first line part0 part1 rawdata_part H3)|].
  split.
  - intros [Hn|Hn]; rewrite Hn in Hline; exact Hline.
  - intros c ga qa more Hc Hne Hs.
    rewrite Hc in Hline. destruct c as [|c0 c']; [now elim Hne|].
    rewrite (with_comment_eq tp _ ga qa more Hs) in Hline. cbn [Exn.bind] in Hline.
    eexists. split; [exact Hline|].
    split; [apply pad_telegram_part_spaces|].
    split; [|split].
    + intros Hlen. rewrite len_app, len_pad_telegram_part. simpl len. lia.
    + intros Hg. pose proof Hg as Hg'. apply Nat.ltb_lt in Hg'. rewrite Hg'.
      split; [now rewrite !app_assoc_s|].
      rewrite !len_app, len_spaces, len_pad_telegram_part.
      unfold semicolon_gap in *. rewrite len_pad_telegram_part in *.
      simpl len. lia.
    + intros Hg. now rewrite Hg.
Qed.

(** A telegram line as the serializer writes it, with the comment of a
    telegram for 2/3/5: the written line, character for character. *)
Lemma telegram_line_layout_witness :
  insert_comment_line ["<!-- GA: 2/3/5 ; QA: 1.1.5 -->"] 0
                      (sample_line (data_frame "1105" "2305")) =
    Ok ("    " ++ pad_telegram_part (sample_telegram_part (data_frame "1105" "2305"))
        ++ "<!-- GA: 2/3/5    ; QA: 1.1.5 -->" ++ String newline EmptyString, 1%nat) /\
  len ("    " ++ pad_telegram_part (sample_telegram_part (data_frame "1105" "2305")))
    = 165%nat /\
  len ("    " ++ pad_telegram_part (sample_telegram_part (data_frame "1105" "2305"))
       ++ "<!-- GA: 2/3/5    ") = 183%nat.
Proof.
  destruct (telegram_line_layout ["<!-- GA: 2/3/5 ; QA: 1.1.5 -->"] 0
              (sample_line (data_frame "1105" "2305"))
              ("<Telegram Timestamp=" ++ quoted "2023-10-01T12:00:00.000Z"
               ++ " Service=" ++ quoted "L_Busmon.ind"
               ++ " FrameFormat=" ++ quoted "CommonEmi" ++ " ")
              (data_frame "1105" "2305" ++ String dquote "></Telegram>"
               ++ String newline EmptyString)
              (data_frame "1105" "2305")
              ["></Telegram>" ++ String newline EmptyString])
    as (_ & _ & H); try reflexivity.
  destruct (H "<!-- GA: 2/3/5 ; QA: 1.1.5 -->" "GA: 2/3/5 " " QA: 1.1.5 -->" [])
    as (suffix & Hline & _ & H165 & Hgap & _);
    [reflexivity | discriminate | reflexivity |].
  destruct Hgap as [-> H183]; [vm_compute; lia|].
  split; [exact Hline|]. split; [apply H165; vm_compute; lia | exact H183].
Defined.

(** Against C8 as stated: in that line the character in column 165,
    counted from 1, is still padding and the comment opens in column 166;
    the character in column 183 is a space and the semicolon stands in
    column 184. ([get] counts from 0.) *)
Lemma comment_opens_in_column_166 :
  exists new_line,
    insert_comment_line ["<!-- GA: 2/3/5 ; QA: 1.1.5 -->"] 0
                        (sample_line (data_frame "1105" "2305")) = Ok (new_line, 1%nat) /\
    get 164 new_line = Some " "%char /\
    substring 165 5 new_line = "<!-- " /\
    get 182 new_line = Some " "%char /\
    get 183 new_line = Some ";"%char.
Proof.
  eexists. split; [vm_compute; reflexivity|]. repeat split.
Qed.

(** C10. For a comment made of the opener and a text without [<], split
    at its semicolon: when the indentation, the padded telegram text, the
    five characters of the opener and the group address field already take
    183 characters or more, no spaces are put in and the line ends with
    the text alone, the opener gone, so that no comment opens on the line;
    the opener is written only when spaces are put in. *)
Theorem opener_only_with_padding (tp body ga qa : string) (more : list string) :
  has_char "<" body = false ->
  split body ";" = ga :: qa :: more ->
  exists suffix,
    with_comment tp (opener ++ body) =
      Ok ("    " ++ pad_telegram_part tp ++ suffix ++ String newline EmptyString) /\
    ((183 <= 4 + len (pad_telegram_part tp) + 5 + len (strip ga))%nat ->
     suffix = body /\ prefix opener suffix = false /\
     contains "<!--" suffix = false) /\
    ((4 + len (pad_telegram_part tp) + 5 + len (strip ga) < 183)%nat ->
     suffix = opener ++ (strip ga ++ spaces (semicolon_gap tp (strip ga)))
                     ++ "; " ++ strip qa /\
     prefix opener suffix = true /\
     (0 < semicolon_gap tp (strip ga))%nat).
Proof.
  intros Hlt Hs.
  destruct (with_comment_opener tp body ga qa more Hlt Hs) as [H0 Hpos].
  destruct (Nat.lt_ge_cases (4 + len (pad_telegram_part tp) + 5 + len (strip ga)) 183)
    as [Hsmall|Hbig].
  - assert (Hg : (0 < semicolon_gap tp (strip ga))%nat)
      by (unfold semicolon_gap; lia).
    eexists. split; [exact (Hpos Hg)|]. split; [lia|].
    intros _. split; [reflexivity|]. split; [apply prefix_app | exact Hg].
  - assert (Hg : semicolon_gap tp (strip ga) = 0%nat)
      by (unfold semicolon_gap; lia).
    exists body. split; [exact (H0 Hg)|]. split; [|lia].
    intros _. split; [reflexivity|].
    split; [now apply (prefix_absent "<" "!-- ") | now apply (contains_absent "<" "!--")].
Qed.

(** The comments of two telegrams as the loop writes them: nothing decoded
    (23 characters before the semicolon), and the group address 15/15/255
    (13 characters, no gap left after the 165 and the opener's 5). Both
    lines end without an opener. *)
Lemma opener_only_with_padding_witness :
  with_comment (sample_telegram_part frame20)
               (make_comment "IGNORE (unbestimmt)" EmptyString) =
    Ok ("    " ++ pad_telegram_part (sample_telegram_part frame20)
        ++ "GA: IGNORE (unbestimmt) ; QA:  -->" ++ String newline EmptyString) /\
  with_comment (sample_telegram_part (data_frame "1105" "FFFF"))
               (make_comment "15/15/255" "1.1.5") =
    Ok ("    " ++ pad_telegram_part (sample_telegram_part (data_frame "1105" "FFFF"))
        ++ "GA: 15/15/255 ; QA: 1.1.5 -->" ++ String newline EmptyString).
Proof.
  split.
  - destruct (opener_only_with_padding (sample_telegram_part frame20)
                "GA: IGNORE (unbestimmt) ; QA:  -->"
                "GA: IGNORE (unbestimmt) " " QA:  -->" [] eq_refl eq_refl)
      as (suffix & Hw & H0 & _).
    destruct H0 as (-> & _); [vm_compute; lia | exact Hw].
  - destruct (opener_only_with_padding (sample_telegram_part (data_frame "1105" "FFFF"))
                "GA: 15/15/255 ; QA: 1.1.5 -->"
                "GA: 15/15/255 " " QA: 1.1.5 -->" [] eq_refl eq_refl)
      as (suffix & Hw & H0 & _).
    destruct H0 as (-> & _); [vm_compute; lia | exact Hw].
Defined.

(** * Further properties of the decoders *)

Lemma is_ack_long (raw : string) : (24 < len raw)%nat -> is_ack raw = false.
Proof.
  intros H. unfold is_ack.
  replace (len raw <=? 24)%nat with false by (symmetry; apply Nat.leb_gt; lia).
  apply andb_false_r.
Qed.

Lemma group_address_string_not_empty (haupt mittel unter : Z) :
  group_address_string haupt mittel unter <> EmptyString.
Proof.
  intros E.
  assert (H : has_char "/" (group_address_string haupt mittel unter) = true)
    by (unfold group_address_string; apply has_char_app_l; reflexivity).
  rewrite E in H. discriminate H.
Qed.

(** X1. The text IGNORE is the answer for acknowledgements and for frames of
    fewer than 32 characters, and for no other frame. *)
Theorem extract_ignore_iff (raw : string) :
  extract_group_address raw = Ok "IGNORE" <->
  is_ack raw = true \/ (len raw < 32)%nat.
Proof.
  split.
  - intros E. destruct (is_ack raw) eqn:Hack; [now left|]. right.
    destruct (Nat.lt_ge_cases (len raw) 32) as [Hlt|Hge]; [exact Hlt|]. exfalso.
    destruct (int16 (slice raw 28 30)) as [b1|e1] eqn:H1.
    + destruct (int16 (slice raw 30 32)) as [b2|e2] eqn:H2.
      * rewrite (extract_parsed raw b1 b2 Hack Hge H1 H2) in E.
        injection E as E. now apply group_address_string_not_ignore in E.
      * rewrite (extract_unparsed raw Hack Hge) in E by eauto. discriminate E.
    + rewrite (extract_unparsed raw Hack Hge) in E by eauto. discriminate E.
  - intros [Hack|Hlt].
    + now apply extract_ack.
    + destruct (is_ack raw) eqn:Hack; [now apply extract_ack | now apply extract_short].
Qed.


(** The two nibbles of a byte written with two hexadecimal digits are the
    two digits. *)
Lemma nibbles_of_digits (d1 d2 : Z) :
  (0 <= d1 < 16)%Z -> (0 <= d2 < 16)%Z ->
  Z.shiftr (Z.land (16 * d1 + d2) 240) 4 = d1 /\ Z.land (16 * d1 + d2) 15 = d2.
Proof.
  intros H1 H2. rewrite haupt_as_shift_then_mask.
  change 15%Z with (Z.ones 4). rewrite !Z.land_ones by lia.
  rewrite Z.shiftr_div_pow2 by lia. change (2 ^ 4)%Z with 16%Z.
  assert (Hq : ((16 * d1 + d2) / 16 = d1)%Z)
    by (symmetry; apply (Z.div_unique _ 16 d1 d2); lia).
  split.
  - rewrite Hq. apply Z.mod_small. lia.
  - symmetry. apply (Z.mod_unique _ 16 d1 d2); lia.
Qed.

(** X3. Read from hexadecimal digits, the destination is the digit at offset
    28 as main group, the digit at offset 29 as middle group and the byte
    at offsets 30 and 31 as sub group, whatever stands before and after. *)
Theorem group_address_from_hex_digits
    (h tl : string) (c1 c2 c3 c4 : ascii) (d1 d2 d3 d4 : Z) :
  len h = 28%nat ->
  hex_digit c1 = Some d1 -> hex_digit c2 = Some d2 ->
  hex_digit c3 = Some d3 -> hex_digit c4 = Some d4 ->
  extract_group_address (h ++ String c1 (String c2 (String c3 (String c4 tl))))
    = Ok (group_address_string d1 d2 (16 * d3 + d4)).
Proof.
  intros Hh D1 D2 D3 D4.
  set (raw := h ++ String c1 (String c2 (String c3 (String c4 tl)))).
  assert (Hge : (32 <= len raw)%nat).
  { unfold raw. rewrite len_app, Hh. simpl. lia. }
  assert (Hack : is_ack raw = false) by (apply is_ack_long; lia).
  assert (S1 : slice raw 28 30 = String c1 (String c2 EmptyString)).
  { unfold raw, slice. change 28%nat with (28 + 0)%nat at 1.
    rewrite <- Hh at 1. rewrite substring_skip. reflexivity. }
  assert (S2 : slice raw 30 32 = String c3 (String c4 EmptyString)).
  { unfold raw, slice. change 30%nat with (28 + 2)%nat at 1.
    rewrite <- Hh at 1. rewrite substring_skip. simpl. now destruct tl. }
  rewrite (extract_long raw Hack Hge), S1, S2.
  rewrite (int16_hex_pair _ _ _ _ D1 D2), (int16_hex_pair _ _ _ _ D3 D4).
  cbn [Exn.bind try_except].
  destruct (nibbles_of_digits d1 d2 (hex_digit_range _ _ D1) (hex_digit_range _ _ D2))
    as [-> ->].
  reflexivity.
Qed.

(** A frame for the group address 10/11/200: the digits A, B and C8. *)
Lemma group_address_from_hex_digits_witness :
  extract_group_address (data_frame "1105" "ABC8") = Ok "10/11/200".
Proof.
  exact (group_address_from_hex_digits (sample_header ++ "BC1105") "E100813A"
           "A" "B" "C" "8" 10 11 12 8 eq_refl eq_refl eq_refl eq_refl eq_refl).
Defined.

Lemma int16_hex_single (c : ascii) (d : Z) :
  hex_digit c = Some d -> int16 (String c EmptyString) = Ok d.
Proof.
  destruct c as [[] [] [] [] [] [] [] []]; intros H; cbv in H;
    try discriminate H; injection H as <-; reflexivity.
Qed.

(** From 26 characters on, and without [CC] at the end, the result is
    decided by the two [int] calls. *)
Lemma get_physical_long (raw : string) :
  endswith raw "CC" = false -> (26 <= len raw)%nat ->
  get_physical_address raw =
    try_except
      (byte1 <- int16 (slice raw 24 26) ;;
       byte2 <- int16 (slice raw 26 28) ;;
       Ok (physical_address_string (Z.shiftr (Z.land byte1 240) 4)
                                   (Z.land byte1 15) byte2))
      (fun _ => Ok EmptyString).
Proof.
  intros Hcc Hlen. unfold get_physical_address, get_physical_address_body.
  rewrite Hcc.
  replace (len raw <? 26)%nat with false by (symmetry; apply Nat.ltb_ge; lia).
  reflexivity.
Qed.

Lemma slice_skip (h s : string) (n a b : nat) :
  len h = n -> slice (h ++ s) (n + a) (n + b) = slice s a b.
Proof.
  intros <-. unfold slice.
  replace (len h + b - (len h + a))%nat with (b - a)%nat by lia.
  apply substring_skip.
Qed.

(** X4. Read from hexadecimal digits in a frame that does not end with CC,
    the source is the digit at offset 24 as area, the digit at offset 25
    as line and the byte at offsets 26 and 27 as device. *)
Theorem physical_address_from_hex_digits
    (h tl : string) (c1 c2 c3 c4 : ascii) (d1 d2 d3 d4 : Z) :
  len h = 24%nat ->
  endswith (h ++ String c1 (String c2 (String c3 (String c4 tl)))) "CC" = false ->
  hex_digit c1 = Some d1 -> hex_digit c2 = Some d2 ->
  hex_digit c3 = Some d3 -> hex_digit c4 = Some d4 ->
  get_physical_address (h ++ String c1 (String c2 (String c3 (String c4 tl))))
    = Ok (physical_address_string d1 d2 (16 * d3 + d4)).
Proof.
  intros Hh Hcc D1 D2 D3 D4.
  set (raw := h ++ String c1 (String c2 (String c3 (String c4 tl)))) in *.
  assert (Hge : (26 <= len raw)%nat).
  { unfold raw. rewrite len_app, Hh. simpl. lia. }
  assert (S1 : slice raw 24 26 = String c1 (String c2 EmptyString)).
  { etransitivity;
      [exact (slice_skip h _ 24 0 2 Hh) | unfold slice; simpl; reflexivity]. }
  assert (S2 : slice raw 26 28 = String c3 (String c4 EmptyString)).
  { etransitivity;
      [exact (slice_skip h _ 24 2 4 Hh) | unfold slice; simpl; now destruct tl]. }
  rewrite (get_physical_long raw Hcc Hge), S1, S2.
  rewrite (int16_hex_pair _ _ _ _ D1 D2), (int16_hex_pair _ _ _ _ D3 D4).
  cbn [Exn.bind try_except].
  destruct (nibbles_of_digits d1 d2 (hex_digit_range _ _ D1) (hex_digit_range _ _ D2))
    as [-> ->].
  reflexivity.
Qed.

Lemma physical_address_from_hex_digits_witness :
  get_physical_address (data_frame "A7F0" "2305") = Ok "10.7.240".
Proof.
  exact (physical_address_from_hex_digits (sample_header ++ "BC") "2305E100813A"
           "A" "7" "F" "0" 10 7 15 0 eq_refl eq_refl eq_refl eq_refl eq_refl eq_refl).
Defined.

(** X5. The length guard of [get_physical_address] lets frames of 26 and 27
    characters through, although the device byte needs 28: with 26
    characters [int] is called on the empty string and the answer is the
    empty string; with 27 the single digit left is taken for the device
    byte. *)
Theorem physical_address_at_length_26_27
    (h : string) (c1 c2 : ascii) (d1 d2 : Z) :
  len h = 24%nat ->
  hex_digit c1 = Some d1 -> hex_digit c2 = Some d2 ->
  (endswith (h ++ String c1 (String c2 EmptyString)) "CC" = false ->
   len (h ++ String c1 (String c2 EmptyString)) = 26%nat /\
   get_physical_address_body (h ++ String c1 (String c2 EmptyString))
     = Raise ValueError /\
   get_physical_address (h ++ String c1 (String c2 EmptyString)) = Ok EmptyString) /\
  (forall c3 d3,
      hex_digit c3 = Some d3 ->
      endswith (h ++ String c1 (String c2 (String c3 EmptyString))) "CC" = false ->
      get_physical_address (h ++ String c1 (String c2 (String c3 EmptyString)))
        = Ok (physical_address_string d1 d2 d3)).
Proof.
  intros Hh D1 D2. split.
  - intros Hcc.
    set (raw := h ++ String c1 (String c2 EmptyString)) in *.
    assert (Hlen : len raw = 26%nat) by (unfold raw; rewrite len_app, Hh; reflexivity).
    assert (S1 : slice raw 24 26 = String c1 (String c2 EmptyString)).
    { etransitivity;
      [exact (slice_skip h _ 24 0 2 Hh) | unfold slice; simpl; reflexivity]. }
    assert (S2 : slice raw 26 28 = EmptyString).
    { etransitivity;
      [exact (slice_skip h _ 24 2 4 Hh) | unfold slice; simpl; reflexivity]. }
    split; [exact Hlen|].
    assert (Hbody : get_physical_address_body raw = Raise ValueError).
    { unfold get_physical_address_body. rewrite Hcc, Hlen.
      change (24 + 2)%nat with 26%nat. change (24 + 4)%nat with 28%nat.
      cbn [Nat.ltb Nat.leb]. rewrite S1, S2, (int16_hex_pair _ _ _ _ D1 D2).
      reflexivity. }
    split; [exact Hbody|]. unfold get_physical_address. now rewrite Hbody.
  - intros c3 d3 D3 Hcc.
    set (raw := h ++ String c1 (String c2 (String c3 EmptyString))) in *.
    assert (Hge : (26 <= len raw)%nat).
    { unfold raw. rewrite len_app, Hh. simpl. lia. }
    assert (S1 : slice raw 24 26 = String c1 (String c2 EmptyString)).
    { etransitivity;
      [exact (slice_skip h _ 24 0 2 Hh) | unfold slice; simpl; reflexivity]. }
    assert (S2 : slice raw 26 28 = String c3 EmptyString).
    { etransitivity;
      [exact (slice_skip h _ 24 2 4 Hh) | unfold slice; simpl; reflexivity]. }
    rewrite (get_physical_long raw Hcc Hge), S1, S2.
    rewrite (int16_hex_pair _ _ _ _ D1 D2), (int16_hex_single _ _ D3).
    cbn [Exn.bind try_except].
    destruct (nibbles_of_digits d1 d2 (hex_digit_range _ _ D1) (hex_digit_range _ _ D2))
      as [-> ->].
    reflexivity.
Qed.

Lemma physical_address_at_length_26_27_witness :
  get_physical_address (sample_header ++ "BC" ++ "11") = Ok EmptyString /\
  get_physical_address (sample_header ++ "BC" ++ "110") = Ok "1.1.0".
Proof.
  destruct (physical_address_at_length_26_27 (sample_header ++ "BC") "1" "1" 1 1
              eq_refl eq_refl eq_refl) as [H26 H27].
  split.
  - apply H26. reflexivity.
  - exact (H27 "0"%char 0%Z eq_refl eq_refl).
Defined.

(** X6. A data frame whose last byte is CC has its group address decoded,
    being longer than an acknowledgement, while [get_physical_address]
    takes the ending for an acknowledgement: the comment the loop writes
    holds the group address and no physical address. *)
Theorem cc_tail_hides_source
    (fl : list string) (st : loop_state) (t : telegram) (ga : string) :
  endswith (raw_of t) "CC" = true ->
  extract_group_address (raw_of t) = Ok ga ->
  ga <> "IGNORE" -> ga <> EmptyString ->
  get_physical_address (raw_of t) = Ok EmptyString /\
  exists st',
    loop_body fl st t = Ok st' /\
    ((matches_filter fl ga = true /\
      filtered_comments st' =
        (filtered_comments st ++ [("<!-- GA: " ++ ga ++ " ; QA:  -->")%string])%list) \/
     (matches_filter fl ga = false /\
      other_comments st' =
        (other_comments st ++ [("<!-- GA: " ++ ga ++ " ; QA:  -->")%string])%list)).
Proof.
  intros Hcc Hga Hn1 Hn2.
  assert (Hpa : get_physical_address (raw_of t) = Ok EmptyString).
  { unfold get_physical_address, get_physical_address_body. now rewrite Hcc. }
  split; [exact Hpa|].
  destruct (decoded_is_data _ _ Hga Hn1) as [Hne Hack].
  rewrite (loop_body_data fl st t ga EmptyString Hne Hack Hga Hn1 Hn2 Hpa).
  destruct (matches_filter fl ga); eexists; (split; [reflexivity|]);
    [left | right]; split; reflexivity.
Qed.

Lemma cc_tail_hides_source_witness :
  exists st',
    loop_body ["2/3/"] initial_state (sample_telegram frame_cc_tail) = Ok st' /\
    filtered_comments st' = ["<!-- GA: 2/3/5 ; QA:  -->"].
Proof.
  destruct (cc_tail_hides_source ["2/3/"] initial_state
              (sample_telegram frame_cc_tail) "2/3/5")
    as (_ & st' & Hb & Hside);
    [reflexivity | reflexivity | discriminate | discriminate |].
  exists st'. split; [exact Hb|].
  destruct Hside as [(_ & H)|(H & _)]; [exact H | discriminate H].
Defined.

(** * Further properties of [KNXSplitter.__init__] *)

Lemma normalize_one_ends_with_slash (ga : string) :
  endswith (normalize_one ga) "/" = true.
Proof.
  unfold normalize_one.
  destruct (endswith ga "/") eqn:E; [exact E | apply endswith_slash_added].
Qed.

Lemma normalize_one_not_empty (ga : string) : normalize_one ga <> EmptyString.
Proof.
  intros E. pose proof (normalize_one_ends_with_slash ga) as H.
  rewrite E in H. discriminate H.
Qed.

(** X7. Normalizing is done once and for all: the filter list holds no empty
    entry, is no longer than the list given, and normalizing it again
    changes nothing. *)
Theorem normalize_filters_idempotent (group_addresses : list string) :
  normalize_filters (normalize_filters group_addresses)
    = normalize_filters group_addresses /\
  Forall (fun f => f <> EmptyString) (normalize_filters group_addresses) /\
  (List.length (normalize_filters group_addresses)
     <= List.length group_addresses)%nat.
Proof.
  rewrite !normalize_filters_map.
  induction group_addresses as [|ga gas (IH1 & IH2 & IH3)];
    [repeat split; constructor|].
  cbn [filter]. destruct (ga =? EmptyString) eqn:E; cbn [negb].
  - repeat split; [exact IH1 | exact IH2 | simpl; lia].
  - cbn [map filter].
    assert (Hne : (normalize_one ga =? EmptyString) = false)
      by (apply String.eqb_neq, normalize_one_not_empty).
    rewrite Hne. cbn [negb map].
    assert (Hfix : normalize_one (normalize_one ga) = normalize_one ga).
    { unfold normalize_one at 1. now rewrite normalize_one_ends_with_slash. }
    rewrite Hfix, IH1. repeat split.
    + constructor; [apply normalize_one_not_empty | exact IH2].
    + simpl. lia.
Qed.

(** X8. The name of the filtered file is never the name of the other file,
    so the second file written does not replace the first. *)
Theorem output_files_differ
    (input_file : string) (group_addresses : list string) (discard : bool) :
  output_filename (KNXSplitter_init input_file group_addresses discard)
    <> other_filename (KNXSplitter_init input_file group_addresses discard).
Proof.
  simpl. unfold filename_of_filters. intros E.
  apply (f_equal (get 7)) in E. simpl in E. discriminate E.
Qed.

Lemma has_char_lstrip_by (c : ascii) (p : ascii -> bool) (s : string) :
  has_char c s = false -> has_char c (lstrip_by p s) = false.
Proof.
  induction s as [|a s IH]; [reflexivity|]. simpl. intros H.
  apply orb_false_elim in H as [Ha Hs].
  destruct (p a); [now apply IH | simpl; now rewrite Ha, Hs].
Qed.

Lemma has_char_rstrip_by (c : ascii) (p : ascii -> bool) (s : string) :
  has_char c s = false -> has_char c (rstrip_by p s) = false.
Proof.
  induction s as [|a s IH]; [reflexivity|]. simpl. intros H.
  apply orb_false_elim in H as [Ha Hs]. specialize (IH Hs).
  destruct (rstrip_by p s) as [|b r].
  - destruct (p a); [reflexivity | simpl; now rewrite Ha].
  - simpl. simpl in IH. now rewrite Ha, IH.
Qed.

Lemma replace_slash_no_slash (s : string) :
  has_char "/" (replace s "/" "_") = false.
Proof.
  rewrite replace_slash. induction s as [|a s IH]; [reflexivity|]. simpl.
  rewrite IH, orb_false_r. unfold slash_to_underscore.
  destruct (Ascii.eqb a "/") eqn:E; [reflexivity | exact E].
Qed.

Lemma has_char_concat (c : ascii) (sep : string) (parts : list string) :
  has_char c sep = false ->
  Forall (fun s => has_char c s = false) parts ->
  has_char c (String.concat sep parts) = false.
Proof.
  intros Hsep. induction 1 as [|s parts Hs _ IH]; [reflexivity|]. simpl.
  destruct parts as [|s' parts']; [exact Hs|].
  now rewrite !has_char_app, Hs, Hsep, IH.
Qed.

(** X9. Whatever the filters are, the name of the filtered file holds no
    slash: the file is written under that name in the working directory. *)
Theorem output_filename_has_no_slash
    (input_file : string) (group_addresses : list string) (discard : bool) :
  has_char "/" (output_filename (KNXSplitter_init input_file group_addresses discard))
    = false.
Proof.
  simpl. unfold filename_of_filters.
  set (fl := normalize_filters group_addresses).
  assert (Hparts : Forall (fun s => has_char "/" s = false) (map filename_part fl)).
  { apply Forall_forall. intros s Hs. apply in_map_iff in Hs as (ga & <- & _).
    unfold filename_part, strip_char, strip_by.
    apply has_char_rstrip_by, has_char_lstrip_by, replace_slash_no_slash. }
  rewrite !has_char_app.
  destruct (map filename_part fl) as [|p ps] eqn:E; [reflexivity|].
  unfold join. rewrite (has_char_concat "/" "-" (p :: ps) eq_refl Hparts).
  reflexivity.
Qed.

(** * Further properties of the loop of [split_and_save] *)

Lemma Forall2_snoc {A B : Type} (R : A -> B -> Prop) (l : list A) (l' : list B) a b :
  Forall2 R l l' -> R a b -> Forall2 R (l ++ [a])%list (l' ++ [b])%list.
Proof.
  intros H Hab. apply Forall2_app; [exact H | now constructor].
Qed.

Lemma loop_body_routed_as_decided fl st t :
  routed_as_decided fl st ->
  exists st', loop_body fl st t = Ok st' /\ routed_as_decided fl st'.
Proof.
  intros [Hf Ho].
  destruct (string_dec (raw_of t) EmptyString) as [He|Hne].
  { exists st. split; [now apply loop_body_skip | now split]. }
  destruct (is_ack (raw_of t)) eqn:Hack.
  { rewrite (loop_body_ack _ _ _ Hack).
    destruct (last_destination st) as [[|]|]; eexists; (split; [reflexivity|]);
      split; simpl; try assumption; apply Forall2_snoc; try assumption;
      left; now split. }
  destruct (extract_group_address_total (raw_of t)) as [ga Hga].
  destruct (get_physical_address_total (raw_of t)) as [pa Hpa].
  assert (Hcases : (ga = "IGNORE" \/ ga = EmptyString) \/
                   (ga <> "IGNORE" /\ ga <> EmptyString)).
  { destruct (string_dec ga "IGNORE"); [now left; left|].
    destruct (string_dec ga EmptyString); [now left; right | now right]. }
  destruct Hcases as [Hs|[N1 N2]].
  - rewrite (loop_body_ignore fl st t ga pa Hne Hack Hga Hs Hpa).
    eexists; split; [reflexivity|]. split; simpl; [|exact Ho].
    apply Forall2_snoc; [exact Hf|]. right. exists ga, pa.
    repeat (split; [assumption|]). left. now split.
  - rewrite (loop_body_data fl st t ga pa Hne Hack Hga N1 N2 Hpa).
    destruct (matches_filter fl ga) eqn:Hm; eexists; (split; [reflexivity|]);
      split; simpl; try assumption; apply Forall2_snoc; try assumption.
    + right. exists ga, pa. repeat (split; [assumption|]). right. now repeat split.
    + right. exists ga, pa. now repeat split.
Qed.

Lemma split_loop_routed_as_decided fl (ts : list telegram) : forall st,
  routed_as_decided fl st ->
  exists st', split_loop fl st ts = Ok st' /\ routed_as_decided fl st'.
Proof.
  induction ts as [|t ts IH]; intros st H; [now exists st|].
  destruct (loop_body_routed_as_decided fl st t H) as (st1 & Hb & H1).
  destruct (IH st1 H1) as (st' & Hl & H').
  exists st'. split; [|exact H']. simpl. now rewrite Hb.
Qed.

(** X11. Every telegram of a collection is there for a reason the loop checks:
    the filtered collection holds acknowledgements, telegrams without a
    decoded group address and telegrams whose address a filter entry
    begins; the other collection holds acknowledgements and telegrams whose
    decoded address no filter entry begins, so no telegram a filter selects
    is ever in the other collection. Each comment is the one of its
    telegram: empty for an acknowledgement, else made of the two decoded
    addresses. *)
Theorem collections_hold_what_was_routed
    (self : KNXSplitter) (telegrams : list telegram) :
  exists st,
    split_telegrams self telegrams = Ok st /\
    Forall2 (filtered_entry (filter_list self))
            (filtered_telegrams st) (filtered_comments st) /\
    Forall2 (other_entry (filter_list self))
            (other_telegrams st) (other_comments st).
Proof.
  unfold split_telegrams.
  destruct (split_loop_routed_as_decided (filter_list self) telegrams initial_state)
    as (st & Hl & Hf & Ho); [split; constructor|].
  now exists st.
Qed.

Lemma loop_body_other_led_by_data fl st t :
  other_led_by_data st ->
  exists st', loop_body fl st t = Ok st' /\ other_led_by_data st'.
Proof.
  intros [Hd Hh].
  assert (Hkeep : forall c, other_led_by_data (append_filtered st t c)).
  { intros c. split; simpl; assumption. }
  assert (Hdata : forall c, raw_of t <> EmptyString -> is_ack (raw_of t) = false ->
            forall s, other_telegrams s = other_telegrams st ->
            other_led_by_data (set_last_destination (append_other s t c) Other)).
  { intros c Hne Hack s Hs. split; simpl; rewrite Hs.
    - intros _. now destruct (other_telegrams st).
    - intros t0 rest E. destruct (other_telegrams st) as [|x xs] eqn:Eo.
      + injection E as <- _. now split.
      + injection E as <- _. now apply (Hh x xs). }
  destruct (string_dec (raw_of t) EmptyString) as [He|Hne].
  { exists st. split; [now apply loop_body_skip | now split]. }
  destruct (is_ack (raw_of t)) eqn:Hack.
  { rewrite (loop_body_ack _ _ _ Hack).
    destruct (last_destination st) as [[|]|] eqn:Ed; eexists; (split; [reflexivity|]);
      try apply Hkeep.
    split; simpl.
    - intros _. now destruct (other_telegrams st).
    - intros t0 rest E. destruct (other_telegrams st) as [|x xs] eqn:Eo.
      + now elim (Hd eq_refl).
      + injection E as <- _. now apply (Hh x xs). }
  destruct (extract_group_address_total (raw_of t)) as [ga Hga].
  destruct (get_physical_address_total (raw_of t)) as [pa Hpa].
  assert (Hcases : (ga = "IGNORE" \/ ga = EmptyString) \/
                   (ga <> "IGNORE" /\ ga <> EmptyString)).
  { destruct (string_dec ga "IGNORE"); [now left; left|].
    destruct (string_dec ga EmptyString); [now left; right | now right]. }
  destruct Hcases as [Hs|[N1 N2]].
  - rewrite (loop_body_ignore fl st t ga pa Hne Hack Hga Hs Hpa).
    eexists; split; [reflexivity|]. split; simpl; [discriminate | exact Hh].
  - rewrite (loop_body_data fl st t ga pa Hne Hack Hga N1 N2 Hpa).
    destruct (matches_filter fl ga); eexists; (split; [reflexivity|]).
    + split; simpl; [discriminate | exact Hh].
    + now apply Hdata.
Qed.

Lemma split_loop_other_led_by_data fl (ts : list telegram) : forall st,
  other_led_by_data st ->
  exists st', split_loop fl st ts = Ok st' /\ other_led_by_data st'.
Proof.
  induction ts as [|t ts IH]; intros st H; [now exists st|].
  destruct (loop_body_other_led_by_data fl st t H) as (st1 & Hb & H1).
  destruct (IH st1 H1) as (st' & Hl & H').
  exists st'. split; [|exact H']. simpl. now rewrite Hb.
Qed.

(** X12. The other collection never begins with an acknowledgement: its first
    telegram is a data telegram, and acknowledgements only follow one. *)
Theorem other_begins_with_data (self : KNXSplitter) (telegrams : list telegram) :
  exists st,
    split_telegrams self telegrams = Ok st /\
    (forall t rest, other_telegrams st = t :: rest ->
                    raw_of t <> EmptyString /\ is_ack (raw_of t) = false).
Proof.
  unfold split_telegrams.
  destruct (split_loop_other_led_by_data (filter_list self) telegrams initial_state)
    as (st & Hl & _ & Hh).
  - split; simpl; [discriminate | intros t rest E; discriminate E].
  - now exists st.
Qed.

Lemma skipped_or_ack_dec (t : telegram) : {skipped_or_ack t} + {~ skipped_or_ack t}.
Proof.
  unfold skipped_or_ack.
  destruct (string_dec (raw_of t) EmptyString) as [He|Hne]; [now left; left|].
  destruct (is_ack (raw_of t)) eqn:Hack; [now left; right|].
  right. intros [H|H]; [now apply Hne | discriminate H].
Qed.

Lemma split_loop_destination fl (ts : list telegram) : forall st,
  exists st',
    split_loop fl st ts = Ok st' /\
    (last_destination st' = None <->
     last_destination st = None /\ Forall skipped_or_ack ts).
Proof.
  induction ts as [|t ts IH]; intros st.
  - exists st. split; [reflexivity|]. split; [now split | now intros [H _]].
  - destruct (skipped_or_ack_dec t) as [Hs|Hn].
    + destruct (split_loop_keeps_destination fl [t] st) as (st1 & H1 & Hd1);
        [now constructor|].
      simpl in H1. destruct (loop_body fl st t) as [s|e] eqn:Hb; [|discriminate H1].
      simpl in H1. injection H1 as ->.
      destruct (IH st1) as (st' & Hl & Hiff). exists st'. simpl. rewrite Hb. simpl.
      split; [exact Hl|]. rewrite Hiff, Hd1. split.
      * intros [H0 Hall]. split; [exact H0 | now constructor].
      * intros [H0 Hall]. split; [exact H0 | now inversion Hall].
    + assert (Hne : raw_of t <> EmptyString) by (intros E; apply Hn; now left).
      assert (Hack : is_ack (raw_of t) = false).
      { destruct (is_ack (raw_of t)) eqn:E; [|reflexivity]. elim Hn. now right. }
      destruct (loop_body_routes fl st t Hne Hack) as (st1 & Hb & Hside).
      destruct (IH st1) as (st' & Hl & Hiff). exists st'. simpl. rewrite Hb. simpl.
      split; [exact Hl|]. rewrite Hiff. split.
      * intros [H0 _]. destruct Hside as [(_ & _ & E)|(_ & _ & E)];
          rewrite E in H0; discriminate H0.
      * intros [_ Hall]. inversion Hall; subst. contradiction.
Qed.

(** X13. [last_destination] is still unset at the end exactly when every
    telegram was skipped or was an acknowledgement; once a data telegram has
    been routed it is never unset again. In that case the other collection
    is empty: all acknowledgements went to the filtered one. *)
Theorem destination_unset_iff_no_data (self : KNXSplitter) (telegrams : list telegram) :
  exists st,
    split_telegrams self telegrams = Ok st /\
    (last_destination st = None <-> Forall skipped_or_ack telegrams) /\
    (Forall skipped_or_ack telegrams -> other_telegrams st = []).
Proof.
  unfold split_telegrams.
  destruct (split_loop_destination (filter_list self) telegrams initial_state)
    as (st & Hl & Hiff).
  destruct (split_loop_other_led_by_data (filter_list self) telegrams initial_state)
    as (st2 & Hl2 & _ & Hh).
  { split; simpl; [discriminate | intros t rest E; discriminate E]. }
  rewrite Hl in Hl2. injection Hl2 as <-.
  destruct (split_loop_routed_as_decided (filter_list self) telegrams initial_state)
    as (st3 & Hl3 & _ & Ho); [split; constructor|].
  rewrite Hl in Hl3. injection Hl3 as <-.
  exists st. split; [exact Hl|]. split.
  - rewrite Hiff. simpl. split; [now intros [_ H] | now split].
  - intros Hall.
    destruct (split_loop_keeps_destination (filter_list self) telegrams initial_state Hall)
      as (st4 & Hl4 & Hd4).
    rewrite Hl in Hl4. injection Hl4 as <-.
    destruct (other_telegrams st) as [|t rest] eqn:Eo; [reflexivity|].
    exfalso.
    destruct (Hh t rest eq_refl) as [Hne Hack].
    pose proof (split_loop_partition (filter_list self) telegrams initial_state)
      as (st5 & f & o & fc & oc & Hl5 & _ & Ho5 & _ & _ & Hi & _).
    rewrite Hl in Hl5. injection Hl5 as <-. simpl in Ho5. subst o.
    assert (Hin : In t telegrams).
    { rewrite Eo in Hi.
      assert (X : In t (filter has_raw telegrams))
        by (apply (interleave_In _ _ _ Hi); right; now left).
      now apply filter_In in X. }
    rewrite Forall_forall in Hall. destruct (Hall t Hin) as [E|E].
    + now apply Hne.
    + rewrite E in Hack. discriminate Hack.
Qed.

(** * Further properties of [insert_comments] *)

Lemma insert_comment_line_other (comments : list string) (idx : nat) (line : string) :
  contains "<Telegram" line && contains "</Telegram>" line = false ->
  insert_comment_line comments idx line = Ok (line, idx).
Proof.
  intros H. unfold insert_comment_line. now rewrite H.
Qed.

(** A rewritten line moves [comment_idx] on by one, any other line leaves
    it. *)
Lemma insert_comment_line_idx (comments : list string) (idx : nat) (line o : string)
    (j : nat) :
  insert_comment_line comments idx line = Ok (o, j) ->
  j = if telegram_line line then S idx else idx.
Proof.
  unfold insert_comment_line, telegram_line.
  destruct (contains "<Telegram" line && contains "</Telegram>" line);
    [|intros H; now injection H as _ <-].
  cbn [andb].
  destruct (split (lstrip line) rawdata_open) as [|p0 [|p1 [|p2 ps]]];
    try (intros H; now injection H as _ <-).
  cbn [List.length Nat.eqb].
  destruct (split_go_cons (String dquote EmptyString) p1 0 EmptyString) as (x & l & Hx).
  unfold split at 1. rewrite Hx. unfold list_index. cbn [nth_error Exn.bind].
  destruct (nth_error comments idx) as [[|c0 c']|];
    try (intros H; now injection H as _ <-).
  destruct (with_comment (self_closing p0 x) (String c0 c')); cbn [Exn.bind];
    [intros H; now injection H as _ <- | discriminate].
Qed.

(** X15. [insert_comments] writes as many lines as it read, and a line without
    both Telegram tags is written back as it was. *)
Theorem insert_comments_keeps_other_lines
    (comments : list string) (lines : list string) : forall (idx : nat) (out : list string),
  insert_comments_from comments idx lines = Ok out ->
  List.length out = List.length lines /\
  (forall i line,
      nth_error lines i = Some line ->
      contains "<Telegram" line && contains "</Telegram>" line = false ->
      nth_error out i = Some line).
Proof.
  induction lines as [|l ls IH]; intros idx out H; simpl in H.
  - injection H as <-. split; [reflexivity|]. intros [|i] line E; discriminate E.
  - destruct (insert_comment_line comments idx l) as [[o j]|e] eqn:Hl; [|discriminate H].
    cbn [Exn.bind fst snd] in H.
    destruct (insert_comments_from comments j ls) as [rest|e] eqn:Hr; [|discriminate H].
    cbn [Exn.bind] in H. injection H as <-.
    destruct (IH j rest Hr) as [Hlen Hkeep].
    split; [simpl; now rewrite Hlen|].
    intros [|i] line E Hc; simpl in *.
    + injection E as ->. rewrite (insert_comment_line_other _ _ _ Hc) in Hl.
      now injection Hl as <- _.
    + now apply Hkeep.
Qed.

(** The declaration and the root tags around one telegram line. *)
Lemma insert_comments_keeps_other_lines_witness :
  exists out,
    insert_comments
      [xml_declaration; "<CommunicationLog>";
       sample_line (data_frame "1105" "2305"); "</CommunicationLog>"]
      ["<!-- GA: 2/3/5 ; QA: 1.1.5 -->"] = Ok out /\
    List.length out = 4%nat /\
    nth_error out 0 = Some xml_declaration /\
    nth_error out 1 = Some "<CommunicationLog>" /\
    nth_error out 3 = Some "</CommunicationLog>".
Proof.
  destruct (insert_comments
              [xml_declaration; "<CommunicationLog>";
               sample_line (data_frame "1105" "2305"); "</CommunicationLog>"]
              ["<!-- GA: 2/3/5 ; QA: 1.1.5 -->"]) as [out|e] eqn:E;
    [|vm_compute in E; discriminate E].
  exists out. split; [reflexivity|].
  destruct (insert_comments_keeps_other_lines _ _ _ _ E) as [Hlen Hkeep].
  split; [exact Hlen|].
  split; [|split]; apply Hkeep; reflexivity.
Defined.

(** X16. Each line is written with the comment whose index is the number of
    rewritten telegram lines before it: the first telegram line gets the
    first comment, the second the second, whatever other lines stand in
    between; a line with both Telegram tags that does not split in two at
    its RawData attribute takes no comment and does not count. *)
Theorem telegram_lines_get_own_comment
    (comments : list string) (lines : list string) : forall (idx : nat) (out : list string),
  insert_comments_from comments idx lines = Ok out ->
  forall i line,
    nth_error lines i = Some line ->
    exists o j,
      nth_error out i = Some o /\
      insert_comment_line comments
        (idx + List.length (filter telegram_line (firstn i lines))) line = Ok (o, j).
Proof.
  induction lines as [|l ls IH]; intros idx out H i line E; simpl in H.
  - destruct i; discriminate E.
  - destruct (insert_comment_line comments idx l) as [[o j]|e] eqn:Hl; [|discriminate H].
    cbn [Exn.bind fst snd] in H.
    destruct (insert_comments_from comments j ls) as [rest|e] eqn:Hr; [|discriminate H].
    cbn [Exn.bind] in H. injection H as <-.
    destruct i as [|i]; simpl in E.
    + injection E as <-. exists o, j. split; [reflexivity|].
      simpl. now rewrite Nat.add_0_r.
    + destruct (IH j rest Hr i line E) as (o' & j' & Ho & Hline).
      exists o', j'. split; [exact Ho|].
      pose proof (insert_comment_line_idx _ _ _ _ _ Hl) as Hj.
      cbn [firstn filter].
      destruct (telegram_line l); subst j; cbn [List.length].
      * now rewrite Nat.add_succ_r.
      * exact Hline.
Qed.

(** Two telegram lines between other lines, with their two comments. *)
Lemma telegram_lines_get_own_comment_witness :
  exists out o1 o2,
    insert_comments
      ["<CommunicationLog>"; sample_line (data_frame "1105" "2305");
       "<RecordStop />"; sample_line (data_frame "1105" "1205");
       "</CommunicationLog>"]
      ["<!-- GA: 2/3/5 ; QA: 1.1.5 -->"; "<!-- GA: 1/2/5 ; QA: 1.1.5 -->"] = Ok out /\
    nth_error out 1 = Some o1 /\ nth_error out 3 = Some o2 /\
    insert_comment_line
      ["<!-- GA: 2/3/5 ; QA: 1.1.5 -->"; "<!-- GA: 1/2/5 ; QA: 1.1.5 -->"] 0
      (sample_line (data_frame "1105" "2305")) = Ok (o1, 1%nat) /\
    insert_comment_line
      ["<!-- GA: 2/3/5 ; QA: 1.1.5 -->"; "<!-- GA: 1/2/5 ; QA: 1.1.5 -->"] 1
      (sample_line (data_frame "1105" "1205")) = Ok (o2, 2%nat).
Proof.
  destruct (insert_comments
              ["<CommunicationLog>"; sample_line (data_frame "1105" "2305");
               "<RecordStop />"; sample_line (data_frame "1105" "1205");
               "</CommunicationLog>"]
              ["<!-- GA: 2/3/5 ; QA: 1.1.5 -->"; "<!-- GA: 1/2/5 ; QA: 1.1.5 -->"])
    as [out|e] eqn:E; [|vm_compute in E; discriminate E].
  destruct (telegram_lines_get_own_comment _ _ _ _ E 1%nat _ eq_refl)
    as (o1 & j1 & Ho1 & H1).
  destruct (telegram_lines_get_own_comment _ _ _ _ E 3%nat _ eq_refl)
    as (o2 & j2 & Ho2 & H2).
  exists out, o1, o2. split; [reflexivity|]. split; [exact Ho1|]. split; [exact Ho2|].
  pose proof (insert_comment_line_idx _ _ _ _ _ H1) as J1.
  pose proof (insert_comment_line_idx _ _ _ _ _ H2) as J2.
  vm_compute in J1, J2. subst j1 j2.
  split; [exact H1 | exact H2].
Defined.

(** A string that holds the separator splits in two pieces at least. *)
Lemma split_has_sep (c : ascii) (s : string) : forall cur,
  has_char c s = true ->
  exists a b more, split_go (String c EmptyString) 0 cur s = a :: b :: more.
Proof.
  induction s as [|x s IH]; intros cur H; [discriminate H|].
  cbn [split_go prefix]. simpl in H.
  destruct (ascii_dec c x) as [->|Hn].
  - replace (prefix EmptyString s) with true by (now destruct s).
    destruct (split_go_cons (String x EmptyString) s
                (len (String x EmptyString) - 1) EmptyString) as (b & more & E).
    rewrite E. eauto.
  - apply IH. destruct (Ascii.eqb_spec x c) as [->|_]; [now elim Hn | exact H].
Qed.

Lemma group_address_no_lt (raw ga : string) :
  extract_group_address raw = Ok ga -> has_char "<" ga = false.
Proof.
  intros H. destruct (extract_group_address_cases raw) as (ga' & H' & Hc).
  rewrite H in H'. injection H' as <-.
  destruct Hc as [->|[->|(b1 & b2 & _ & _ & ->)]]; try reflexivity.
  unfold group_address_string.
  rewrite !has_char_app, !str_of_int_no_lt. reflexivity.
Qed.

(** On a comment the loop built, the branch for comments never fails. *)
Lemma with_comment_loop_comment (tp ga pa : string) :
  has_char "<" ga = false -> has_char "<" pa = false ->
  exists new_line, with_comment tp (make_comment ga pa) = Ok new_line.
Proof.
  intros Hga Hpa.
  set (body := "GA: " ++ ga ++ " ; QA: " ++ pa ++ " -->").
  assert (Hlt : has_char "<" body = false).
  { unfold body. rewrite !has_char_app, Hga, Hpa. reflexivity. }
  assert (Hsemi : has_char ";" body = true).
  { unfold body. rewrite !has_char_app. cbn. now rewrite !orb_true_r. }
  destruct (split_has_sep ";" body EmptyString Hsemi) as (a & b & more & Hs).
  destruct (with_comment_opener tp body a b more Hlt Hs) as [H0 Hpos].
  change (make_comment ga pa) with (opener ++ body).
  destruct (Nat.eq_0_gt_0_cases (semicolon_gap tp (strip a))) as [Hg|Hg].
  - rewrite (H0 Hg). eauto.
  - rewrite (Hpos Hg). eauto.
Qed.

Lemma insert_comment_line_loop_comments
    (comments : list string) (idx : nat) (line : string) :
  Forall loop_comment comments ->
  exists r, insert_comment_line comments idx line = Ok r.
Proof.
  intros Hall. unfold insert_comment_line.
  destruct (contains "<Telegram" line && contains "</Telegram>" line); [|eauto].
  destruct (split (lstrip line) rawdata_open) as [|p0 [|p1 [|p2 ps]]]; eauto.
  destruct (split_go_cons (String dquote EmptyString) p1 0 EmptyString) as (x & l & Hx).
  unfold split at 1. rewrite Hx. unfold list_index. cbn [nth_error Exn.bind].
  destruct (nth_error comments idx) as [[|c0 c']|] eqn:E; eauto.
  apply nth_error_In in E. rewrite Forall_forall in Hall.
  destruct (Hall _ E) as [Hc|(ga & pa & Hga & Hpa & Hc)]; [discriminate Hc|].
  rewrite Hc. destruct (with_comment_loop_comment (self_closing p0 x) ga pa Hga Hpa)
    as (new_line & ->).
  cbn [Exn.bind]. eauto.
Qed.

Lemma insert_comments_from_loop_comments (comments lines : list string) :
  Forall loop_comment comments ->
  forall idx, exists out, insert_comments_from comments idx lines = Ok out.
Proof.
  intros Hall. induction lines as [|l ls IH]; intros idx; simpl; [eauto|].
  destruct (insert_comment_line_loop_comments comments idx l Hall) as (r & ->).
  cbn [Exn.bind]. destruct (IH (snd r)) as (rest & ->). cbn [Exn.bind]. eauto.
Qed.

Lemma filtered_entry_comment fl t c : filtered_entry fl t c -> loop_comment c.
Proof.
  intros [[_ ->]|(ga & pa & _ & _ & Hga & Hpa & [[_ ->]|(_ & _ & _ & ->)])];
    [now left | right | right].
  - exists "IGNORE (unbestimmt)", pa.
    split; [reflexivity|]. split; [now apply (physical_address_no_lt _ _ Hpa) | reflexivity].
  - exists ga, pa. split; [now apply (group_address_no_lt _ _ Hga)|].
    split; [now apply (physical_address_no_lt _ _ Hpa) | reflexivity].
Qed.

Lemma other_entry_comment fl t c : other_entry fl t c -> loop_comment c.
Proof.
  intros [[_ ->]|(ga & pa & Hga & Hpa & _ & _ & _ & ->)]; [now left | right].
  exists ga, pa. split; [now apply (group_address_no_lt _ _ Hga)|].
  split; [now apply (physical_address_no_lt _ _ Hpa) | reflexivity].
Qed.

Lemma Forall2_right {A B : Type} (R : A -> B -> Prop) (P : B -> Prop)
    (l : list A) (l' : list B) :
  (forall a b, R a b -> P b) -> Forall2 R l l' -> Forall P l'.
Proof.
  intros H. induction 1; constructor; eauto.
Qed.

(** X14. The comments the loop builds never make [insert_comments] fail: every
    comment that is not empty holds the semicolon the second pass splits
    at, so no index is out of range, whatever the lines of the two files
    are. *)
Theorem rendering_never_raises
    (self : KNXSplitter) (telegrams : list telegram) (lines_filtered lines_other : list string) :
  exists st out_filtered out_other,
    split_telegrams self telegrams = Ok st /\
    insert_comments lines_filtered (filtered_comments st) = Ok out_filtered /\
    insert_comments lines_other (other_comments st) = Ok out_other.
Proof.
  unfold split_telegrams, insert_comments.
  destruct (split_loop_routed_as_decided (filter_list self) telegrams initial_state)
    as (st & Hl & Hf & Ho); [split; constructor|].
  pose proof (Forall2_right _ loop_comment _ _ (filtered_entry_comment _) Hf) as Cf.
  pose proof (Forall2_right _ loop_comment _ _ (other_entry_comment _) Ho) as Co.
  destruct (insert_comments_from_loop_comments _ lines_filtered Cf 0) as (outf & Hof).
  destruct (insert_comments_from_loop_comments _ lines_other Co 0) as (outo & Hoo).
  now exists st, outf, outo.
Qed.

(** A comment without a semicolon does make it fail. *)
Lemma comment_without_semicolon_raises :
  insert_comments [sample_line (data_frame "1105" "2305")] ["<!-- GA: 2/3/5 -->"]
    = Raise IndexError.
Proof.
  reflexivity.
Qed.

(** * [split_and_save]: the documents handed to the writer *)

Lemma dict_set_absent {V : Type} (d : py_dict V) (key : string) (v : V) :
  dict_lookup d key = None -> dict_set d key v = (d ++ [(key, v)])%list.
Proof.
  induction d as [|[k v'] d IH]; [reflexivity|]. simpl.
  destruct (k =? key); [discriminate|]. intros H. now rewrite (IH H).
Qed.

Lemma dict_lookup_app {V : Type} (d d' : py_dict V) (key : string) :
  dict_lookup (d ++ d')%list key =
    match dict_lookup d key with
    | Some v => Some v
    | None => dict_lookup d' key
    end.
Proof.
  induction d as [|[k v] d IH]; [reflexivity|]. simpl.
  destruct (k =? key); [reflexivity | exact IH].
Qed.

Lemma commlog_attrs_without_telegram (root : py_dict node) :
  dict_lookup (commlog_attrs_of root) "Telegram" = None.
Proof.
  unfold commlog_attrs_of. induction root as [|[k v] root IH]; [reflexivity|].
  simpl. destruct (k =? "Telegram") eqn:E; simpl; [exact IH|]. now rewrite E.
Qed.

Lemma commlog_attrs_lookup (root : py_dict node) (key : string) :
  key <> "Telegram" ->
  dict_lookup (commlog_attrs_of root) key = dict_lookup root key.
Proof.
  intros Hk. unfold commlog_attrs_of.
  induction root as [|[k v] root IH]; [reflexivity|]. simpl.
  destruct (k =? "Telegram") eqn:E; simpl.
  - apply String.eqb_eq in E. subst k.
    destruct (String.eqb_spec "Telegram" key) as [<-|_]; [now elim Hk | exact IH].
  - destruct (k =? key); [reflexivity | exact IH].
Qed.


Lemma document_of_root (attrs : py_dict node) (telegrams : list telegram) :
  dict_lookup attrs "Telegram" = None ->
  document_of attrs telegrams =
    [("CommunicationLog", (attrs ++ [("Telegram", Elements telegrams)])%list)].
Proof.
  intros H. unfold document_of. now rewrite (dict_set_absent _ _ _ H).
Qed.


(** X20. When the documents are built, each is the root with all its entries
    but Telegram, unchanged and in their order, and the Telegram key after
    them with the telegrams of one collection of the loop: every other
    attribute and child of the root is found in both documents as it was
    in the input, and the telegrams stand after the other children, also
    where the input had children behind them. *)
Theorem both_documents_keep_the_root
    (self : KNXSplitter) (doc : py_dict (py_dict node)) (d : save_data) :
  split_and_save_data self (Some doc) = Saved d ->
  exists root telegrams st,
    dict_lookup doc "CommunicationLog" = Some root /\
    telegrams_of doc = Some telegrams /\
    split_telegrams self telegrams = Ok st /\
    filtered_data d =
      [("CommunicationLog",
        (commlog_attrs_of root
           ++ [("Telegram", Elements (filtered_telegrams st))])%list)] /\
    other_data d =
      [("CommunicationLog",
        (commlog_attrs_of root
           ++ [("Telegram", Elements (other_telegrams st))])%list)] /\
    save_filtered_comments d = filtered_comments st /\
    save_other_comments d = other_comments st /\
    (forall key, key <> "Telegram" ->
       dict_lookup (commlog_attrs_of root
                      ++ [("Telegram", Elements (filtered_telegrams st))])%list key
         = dict_lookup root key /\
       dict_lookup (commlog_attrs_of root
                      ++ [("Telegram", Elements (other_telegrams st))])%list key
         = dict_lookup root key).
Proof.
  unfold split_and_save_data, split_telegrams.
  destruct (telegrams_of doc) as [telegrams|] eqn:Ht; [|discriminate].
  destruct (split_loop (filter_list self) initial_state telegrams) as [st|e] eqn:Hl;
    [|discriminate].
  destruct (dict_lookup doc "CommunicationLog") as [root|] eqn:Hroot; [|discriminate].
  intros H. injection H as <-. exists root, telegrams, st. cbn.
  rewrite !(document_of_root _ _ (commlog_attrs_without_telegram root)).
  repeat split; try assumption.
  - rewrite dict_lookup_app, (commlog_attrs_lookup root key H).
    destruct (dict_lookup root key); [reflexivity|]. cbn [dict_lookup].
    destruct (String.eqb_spec "Telegram" key) as [<-|_]; [now elim H | reflexivity].
  - rewrite dict_lookup_app, (commlog_attrs_lookup root key H).
    destruct (dict_lookup root key); [reflexivity|]. cbn [dict_lookup].
    destruct (String.eqb_spec "Telegram" key) as [<-|_]; [now elim H | reflexivity].
Qed.

Lemma both_documents_keep_the_root_witness :
  exists d,
    split_and_save_data (KNXSplitter_init "log.xml" ["1/2"] false)
      (Some [("CommunicationLog", sample_root)]) = Saved d /\
    filtered_data d =
      [("CommunicationLog",
        [("@xmlns", Text "http://knx.org/xml/telegrams/01");
         ("RecordStart", Element [("@Timestamp", "2023-10-01T11:59:59.000Z")]);
         ("Telegram", Elements [])])] /\
    other_data d = [("CommunicationLog", sample_root)].
Proof.
  destruct (split_and_save_data (KNXSplitter_init "log.xml" ["1/2"] false)
              (Some [("CommunicationLog", sample_root)])) as [d|e] eqn:E;
    [|vm_compute in E; discriminate E].
  exists d. split; [reflexivity|].
  destruct (both_documents_keep_the_root _ _ _ E)
    as (root & ts & st & Hroot & Hts & Hst & Hf & Ho & _).
  vm_compute in Hroot. injection Hroot as <-.
  vm_compute in Hts. injection Hts as <-.
  vm_compute in Hst. injection Hst as <-.
  split; [exact Hf | exact Ho].
Defined.



(** * Prefix matching and the address hierarchy *)

Lemma string_of_uint_no_slash (u : Decimal.uint) :
  has_char "/" (NilEmpty.string_of_uint u) = false.
Proof.
  induction u; simpl; auto.
Qed.

Lemma str_of_int_no_slash (z : Z) : has_char "/" (str_of_int z) = false.
Proof.
  unfold str_of_int. destruct (Z.to_int z); simpl; apply string_of_uint_no_slash.
Qed.

Lemma str_of_int_inj (a b : Z) : str_of_int a = str_of_int b -> a = b.
Proof.
  unfold str_of_int. intros H. apply DecimalZ.to_int_inj.
  assert (E : NilEmpty.int_of_string (NilEmpty.string_of_int (Z.to_int a))
              = NilEmpty.int_of_string (NilEmpty.string_of_int (Z.to_int b)))
    by now rewrite H.
  rewrite !NilEmpty.isi in E. now injection E.
Qed.

Lemma str_of_int_not_empty (z : Z) : str_of_int z <> EmptyString.
Proof.
  unfold str_of_int. destruct z as [|p|p]; simpl; try discriminate.
  pose proof (DecimalPos.Unsigned.to_uint_nonnil p) as H.
  destruct (Pos.to_uint p); [now elim H | | | | | | | | | |]; discriminate.
Qed.

(** Two texts that each run up to their first slash: one begins the other
    exactly when the parts before the slash are equal and the rest begins
    the rest. *)
Lemma prefix_up_to_slash (a : string) : forall b x y,
  has_char "/" a = false -> has_char "/" b = false ->
  prefix (a ++ String "/" x) (b ++ String "/" y) = (a =? b) && prefix x y.
Proof.
  induction a as [|c a IH]; intros [|c' b] x y Ha Hb; cbn [append prefix String.eqb].
  - destruct (ascii_dec "/" "/") as [_|N]; [reflexivity | now elim N].
  - simpl in Hb. apply orb_false_elim in Hb as [Hc _].
    destruct (ascii_dec "/" c') as [<-|_]; [discriminate Hc | reflexivity].
  - simpl in Ha. apply orb_false_elim in Ha as [Hc _].
    destruct (ascii_dec c "/") as [->|_]; [discriminate Hc | reflexivity].
  - simpl in Ha, Hb. apply orb_false_elim in Ha as [_ Ha].
    apply orb_false_elim in Hb as [_ Hb].
    destruct (ascii_dec c c') as [<-|Hn].
    + rewrite Ascii.eqb_refl. now apply IH.
    + destruct (Ascii.eqb_spec c c') as [E|_]; [now elim Hn | reflexivity].
Qed.

Lemma prefix_needs_char (c : ascii) (p : string) : forall s,
  has_char c s = false -> has_char c p = true -> prefix p s = false.
Proof.
  induction p as [|a p IH]; intros [|b s] Hs Hp; cbn [prefix];
    try discriminate Hp; try reflexivity.
  simpl in Hs, Hp. apply orb_false_elim in Hs as [Hb Hs].
  destruct (ascii_dec a b) as [->|_]; [|reflexivity].
  rewrite Hb in Hp. now apply IH.
Qed.

Lemma endswith_single (c a : ascii) (s : string) :
  endswith (String a s) (String c EmptyString) =
    match s with
    | EmptyString => Ascii.eqb a c
    | _ => endswith s (String c EmptyString)
    end.
Proof.
  unfold endswith. destruct s as [|b s]; cbn [len String.length Nat.leb Nat.sub andb].
  - cbn. destruct (Ascii.eqb a c); reflexivity.
  - rewrite Nat.sub_0_r. reflexivity.
Qed.

Lemma endswith_has_char (c : ascii) (s : string) :
  endswith s (String c EmptyString) = true -> has_char c s = true.
Proof.
  induction s as [|a s IH]; [discriminate|].
  rewrite endswith_single. simpl. destruct s as [|b s].
  - intros ->. reflexivity.
  - intros H. rewrite (IH H). apply orb_true_r.
Qed.

Lemma endswith_app (c : ascii) (x u : string) :
  u <> EmptyString ->
  endswith (x ++ u) (String c EmptyString) = endswith u (String c EmptyString).
Proof.
  intros Hu. induction x as [|a x IH]; [reflexivity|].
  cbn [append]. rewrite endswith_single.
  destruct (x ++ u) as [|b r] eqn:E; [|exact IH].
  destruct x; [now elim Hu | discriminate E].
Qed.

Lemma group_address_string_no_slash_end (haupt mittel unter : Z) :
  endswith (group_address_string haupt mittel unter) "/" = false.
Proof.
  unfold group_address_string.
  rewrite <- !app_assoc_s.
  rewrite (endswith_app "/" _ (str_of_int unter) (str_of_int_not_empty unter)).
  destruct (endswith (str_of_int unter) "/") eqn:E; [|reflexivity].
  apply endswith_has_char in E. now rewrite str_of_int_no_slash in E.
Qed.

(** X10. Matching by the beginning of the rendered address agrees with the
    address hierarchy: a filter naming a main group selects exactly the
    addresses of that main group, a filter naming main and middle group
    exactly those of both (1/2/ never selects 1/20/5, nor 1/ the main
    group 10). A filter naming a complete address selects nothing: it is
    given a slash at its end, which no rendered address has. *)
Theorem prefix_match_follows_hierarchy (haupt mittel unter h m u : Z) :
  (normalize_filters [str_of_int h] = [str_of_int h ++ "/"] /\
   (matches_filter (normalize_filters [str_of_int h])
                   (group_address_string haupt mittel unter) = true
    <-> h = haupt)) /\
  (normalize_filters [str_of_int h ++ "/" ++ str_of_int m]
     = [str_of_int h ++ "/" ++ str_of_int m ++ "/"] /\
   (matches_filter (normalize_filters [str_of_int h ++ "/" ++ str_of_int m])
                   (group_address_string haupt mittel unter) = true
    <-> h = haupt /\ m = mittel)) /\
  (normalize_filters [group_address_string h m u]
     = [group_address_string h m u ++ "/"] /\
   matches_filter (normalize_filters [group_address_string h m u])
                  (group_address_string haupt mittel unter) = false).
Proof.
  assert (N : forall s, s <> EmptyString -> endswith s "/" = false ->
                        normalize_filters [s] = [s ++ "/"]).
  { intros s Hne He. unfold normalize_filters, add_filter, normalize_one. simpl.
    apply String.eqb_neq in Hne. now rewrite Hne, He. }
  assert (E1 : forall z, endswith (str_of_int z) "/" = false).
  { intros z. destruct (endswith (str_of_int z) "/") eqn:E; [|reflexivity].
    apply endswith_has_char in E. now rewrite str_of_int_no_slash in E. }
  assert (NE : forall a b, a ++ String "/" b <> EmptyString)
    by (intros [|? ?] b; discriminate).
  split; [|split].
  - rewrite (N _ (str_of_int_not_empty h) (E1 h)). split; [reflexivity|].
    unfold matches_filter, startswith, group_address_string. cbn [existsb append].
    rewrite orb_false_r.
    rewrite (prefix_up_to_slash _ _ EmptyString _ (str_of_int_no_slash h)
               (str_of_int_no_slash haupt)).
    replace (prefix EmptyString (str_of_int mittel ++ String "/" (str_of_int unter)))
      with true by (now destruct (str_of_int mittel ++ String "/" (str_of_int unter))).
    rewrite andb_true_r, String.eqb_eq.
    split; [apply str_of_int_inj | now intros ->].
  - assert (E2 : endswith (str_of_int h ++ "/" ++ str_of_int m) "/" = false).
    { rewrite <- (app_assoc_s (str_of_int h) "/" (str_of_int m)).
      rewrite (endswith_app "/" _ _ (str_of_int_not_empty m)). apply E1. }
    rewrite (N (str_of_int h ++ "/" ++ str_of_int m) (NE _ _) E2).
    split; [now rewrite !app_assoc_s|].
    unfold matches_filter, startswith, group_address_string. cbn [existsb].
    rewrite orb_false_r, !app_assoc_s. cbn [append].
    rewrite (prefix_up_to_slash _ _ _ _ (str_of_int_no_slash h)
               (str_of_int_no_slash haupt)).
    rewrite (prefix_up_to_slash _ _ EmptyString _ (str_of_int_no_slash m)
               (str_of_int_no_slash mittel)).
    replace (prefix EmptyString (str_of_int unter))
      with true by (now destruct (str_of_int unter)).
    rewrite andb_true_r, andb_true_iff, !String.eqb_eq.
    split; [intros [A B]; split; now apply str_of_int_inj | now intros [-> ->]].
  - rewrite (N _ (group_address_string_not_empty h m u)
               (group_address_string_no_slash_end h m u)).
    split; [reflexivity|].
    unfold matches_filter, startswith, group_address_string. cbn [existsb].
    rewrite orb_false_r, !app_assoc_s. cbn [append].
    rewrite (prefix_up_to_slash _ _ _ _ (str_of_int_no_slash h)
               (str_of_int_no_slash haupt)).
    rewrite (prefix_up_to_slash _ _ _ _ (str_of_int_no_slash m)
               (str_of_int_no_slash mittel)).
    rewrite (prefix_needs_char "/" (str_of_int u ++ "/") (str_of_int unter)
               (str_of_int_no_slash unter) (has_char_app_l "/" _ "/" eq_refl)).
    now rewrite !andb_false_r.
Qed.

(** * The written line of a telegram with a decoded address *)

Lemma string_of_uint_address_chars (u : Decimal.uint) :
  string_forallb address_char (NilEmpty.string_of_uint u) = true.
Proof.
  induction u; simpl; auto.
Qed.

Lemma str_of_int_address_chars (z : Z) :
  string_forallb address_char (str_of_int z) = true.
Proof.
  unfold str_of_int. destruct (Z.to_int z); simpl; apply string_of_uint_address_chars.
Qed.

Lemma forallb_has_char (q : ascii -> bool) (x : ascii) (s : string) :
  string_forallb q s = true -> q x = false -> has_char x s = false.
Proof.
  intros Hs Hx. induction s as [|a s IH]; [reflexivity|]. simpl in *.
  apply andb_prop in Hs as [Ha Hs]. rewrite (IH Hs), orb_false_r.
  destruct (Ascii.eqb_spec a x) as [->|_]; [|reflexivity].
  rewrite Hx in Ha. discriminate Ha.
Qed.

Lemma decoded_address_chars (raw ga : string) :
  extract_group_address raw = Ok ga -> ga <> "IGNORE" ->
  string_forallb address_char ga = true.
Proof.
  intros H Hn. destruct (extract_group_address_cases raw) as (ga' & H' & Hc).
  rewrite H in H'. injection H' as <-.
  destruct Hc as [->|[->|(b1 & b2 & _ & _ & ->)]]; [now elim Hn | reflexivity|].
  unfold group_address_string.
  now rewrite !string_forallb_app, !str_of_int_address_chars.
Qed.

Lemma physical_address_chars (raw pa : string) :
  get_physical_address raw = Ok pa -> string_forallb address_char pa = true.
Proof.
  intros H. destruct (get_physical_address_cases raw) as (pa' & H' & Hc).
  rewrite H in H'. injection H' as <-.
  destruct Hc as [->|(b1 & b2 & _ & _ & ->)]; [reflexivity|].
  unfold physical_address_string.
  now rewrite !string_forallb_app, !str_of_int_address_chars.
Qed.

(** Splitting at a one-character separator: up to its first occurrence,
    and a string without it. *)
Lemma split_go_at_sep (c : ascii) (a b : string) : forall cur,
  has_char c a = false ->
  split_go (String c EmptyString) 0 cur (a ++ String c b) =
    (cur ++ a) :: split_go (String c EmptyString) 0 EmptyString b.
Proof.
  induction a as [|x a IH]; intros cur Ha; cbn [append split_go prefix].
  - destruct (ascii_dec c c) as [_|N]; [|now elim N].
    replace (prefix EmptyString b) with true by (now destruct b).
    now rewrite app_empty_r.
  - simpl in Ha. apply orb_false_elim in Ha as [Hx Ha].
    destruct (ascii_dec c x) as [<-|_]; [now rewrite Ascii.eqb_refl in Hx|].
    rewrite (IH _ Ha), app_assoc_s. reflexivity.
Qed.

Lemma split_go_none (c : ascii) (b : string) : forall cur,
  has_char c b = false ->
  split_go (String c EmptyString) 0 cur b = [cur ++ b].
Proof.
  induction b as [|x b IH]; intros cur Hb; cbn [split_go prefix].
  - now rewrite app_empty_r.
  - simpl in Hb. apply orb_false_elim in Hb as [Hx Hb].
    destruct (ascii_dec c x) as [<-|_]; [now rewrite Ascii.eqb_refl in Hx|].
    rewrite (IH _ Hb), app_assoc_s. reflexivity.
Qed.

Lemma rstrip_by_none (p : ascii -> bool) (t : string) :
  string_forallb (fun c => negb (p c)) t = true -> rstrip_by p t = t.
Proof.
  induction t as [|a t IH]; [reflexivity|]. simpl. intros H.
  apply andb_prop in H as [Ha Ht]. rewrite (IH Ht).
  apply negb_true_iff in Ha. rewrite Ha. now destruct t.
Qed.

(** Nothing is taken off the end of a string that ends with a part of
    its own without a character to strip. *)
Lemma rstrip_by_app_keep (p : ascii -> bool) (s t : string) :
  t <> EmptyString ->
  string_forallb (fun c => negb (p c)) t = true ->
  rstrip_by p (s ++ t) = s ++ t.
Proof.
  intros Hne Ht. induction s as [|a s IH]; [now apply rstrip_by_none|].
  cbn [append rstrip_by]. rewrite IH.
  destruct (s ++ t) as [|b r] eqn:E; [|reflexivity].
  destruct s; [now elim Hne | discriminate E].
Qed.

Lemma rstrip_by_drop (p : ascii -> bool) (s : string) (c : ascii) :
  p c = true -> rstrip_by p (s ++ String c EmptyString) = rstrip_by p s.
Proof.
  intros Hc. induction s as [|a s IH]; cbn [append rstrip_by].
  - now rewrite Hc.
  - now rewrite IH.
Qed.

Lemma address_chars_not_space (s : string) :
  string_forallb address_char s = true ->
  string_forallb (fun c => negb (isspace c)) s = true.
Proof.
  induction s as [|a s IH]; [reflexivity|]. simpl. intros H.
  apply andb_prop in H as [Ha Hs]. rewrite (IH Hs), andb_true_r.
  revert Ha. destruct a as [[] [] [] [] [] [] [] []]; cbv; congruence.
Qed.

(** X17. The line written for a telegram with a decoded group address, letter
    by letter: four spaces, the element filled up to 165 characters, and
    the comment; the opener, the group address, spaces up to the 183rd
    character and the semicolon when the gap is not zero, and else the
    comment as the loop built it but without its opener. With an element
    of at most 161 characters the gap is 9 less the length of the rendered
    group address, so it is zero exactly for the addresses rendered in 9
    characters. *)
Theorem decoded_telegram_line (raw ga pa tp : string) :
  extract_group_address raw = Ok ga ->
  ga <> "IGNORE" -> ga <> EmptyString ->
  get_physical_address raw = Ok pa ->
  ((0 < semicolon_gap tp ("GA: " ++ ga))%nat ->
   with_comment tp (make_comment ga pa) =
     Ok ("    " ++ pad_telegram_part tp
         ++ "<!-- GA: " ++ ga ++ spaces (semicolon_gap tp ("GA: " ++ ga))
         ++ "; QA: " ++ pa ++ " -->" ++ String newline EmptyString)) /\
  (semicolon_gap tp ("GA: " ++ ga) = 0%nat ->
   with_comment tp (make_comment ga pa) =
     Ok ("    " ++ pad_telegram_part tp
         ++ "GA: " ++ ga ++ " ; QA: " ++ pa ++ " -->" ++ String newline EmptyString)) /\
  ((len tp <= 161)%nat -> semicolon_gap tp ("GA: " ++ ga) = (9 - len ga)%nat).
Proof.
  intros Hga Hn1 Hn2 Hpa.
  pose proof (decoded_address_chars _ _ Hga Hn1) as Cga.
  pose proof (physical_address_chars _ _ Hpa) as Cpa.
  set (body := "GA: " ++ ga ++ " ; QA: " ++ pa ++ " -->").
  assert (Hlt : has_char "<" body = false).
  { unfold body. rewrite !has_char_app,
      (forallb_has_char _ "<" _ Cga eq_refl), (forallb_has_char _ "<" _ Cpa eq_refl).
    reflexivity. }
  assert (Hs : split body ";" = ("GA: " ++ ga ++ " ") :: [" QA: " ++ pa ++ " -->"]).
  { unfold split, body.
    replace ("GA: " ++ ga ++ " ; QA: " ++ pa ++ " -->")
      with (("GA: " ++ ga ++ " ") ++ String ";" (" QA: " ++ pa ++ " -->"))
      by (cbn [append]; now rewrite app_assoc_s).
    { rewrite split_go_at_sep.
      - cbn [append]. f_equal. rewrite split_go_none; [reflexivity|].
        cbn [has_char].
        rewrite has_char_app, (forallb_has_char _ ";" _ Cpa eq_refl). reflexivity.
      - rewrite !has_char_app, (forallb_has_char _ ";" _ Cga eq_refl). reflexivity. } }
  assert (Sga : strip ("GA: " ++ ga ++ " ") = "GA: " ++ ga).
  { unfold strip, strip_by. cbn [append lstrip_by].
    change (isspace "G") with false. cbv iota.
    change (String "G" (String "A" (String ":" (String " " (ga ++ " ")))))
      with (("GA: " ++ ga) ++ " ").
    rewrite (rstrip_by_drop isspace _ " " eq_refl).
    apply rstrip_by_app_keep; [exact Hn2 | now apply address_chars_not_space]. }
  assert (Sqa : strip (" QA: " ++ pa ++ " -->") = "QA: " ++ pa ++ " -->").
  { unfold strip, strip_by. cbn [append lstrip_by].
    change (isspace " ") with true. cbv iota. cbn [lstrip_by].
    change (isspace "Q") with false. cbv iota.
    replace (String "Q" (String "A" (String ":" (String " " (pa ++ " -->")))))
      with (("QA: " ++ pa ++ " --") ++ ">")
      by (cbn [append]; now rewrite app_assoc_s).
    { apply rstrip_by_app_keep; [discriminate | reflexivity]. } }
  destruct (with_comment_opener tp body _ _ [] Hlt Hs) as [H0 Hpos].
  rewrite Sga in H0, Hpos. rewrite Sqa in Hpos.
  change (make_comment ga pa) with (opener ++ body).
  split; [|split].
  - intros Hg. rewrite (Hpos Hg). f_equal. f_equal. f_equal.
    unfold opener. rewrite !app_assoc_s. reflexivity.
  - intros Hg. rewrite (H0 Hg). f_equal. f_equal. f_equal.
    unfold body. rewrite !app_assoc_s. reflexivity.
  - intros Hlen. unfold semicolon_gap.
    rewrite len_pad_telegram_part, len_app. simpl len. lia.
Qed.

(** The telegrams for 2/3/5 and for 15/15/255. *)
Lemma decoded_telegram_line_witness :
  with_comment (sample_telegram_part (data_frame "1105" "2305"))
               (make_comment "2/3/5" "1.1.5") =
    Ok ("    " ++ pad_telegram_part (sample_telegram_part (data_frame "1105" "2305"))
        ++ "<!-- GA: 2/3/5    ; QA: 1.1.5 -->" ++ String newline EmptyString) /\
  with_comment (sample_telegram_part (data_frame "1105" "FFFF"))
               (make_comment "15/15/255" "1.1.5") =
    Ok ("    " ++ pad_telegram_part (sample_telegram_part (data_frame "1105" "FFFF"))
        ++ "GA: 15/15/255 ; QA: 1.1.5 -->" ++ String newline EmptyString).
Proof.
  split.
  - destruct (decoded_telegram_line (data_frame "1105" "2305") "2/3/5" "1.1.5"
                (sample_telegram_part (data_frame "1105" "2305")))
      as (Hpos & _ & Hgap); [reflexivity | discriminate | discriminate | reflexivity|].
    rewrite Hgap in Hpos by (vm_compute; lia).
    apply Hpos. vm_compute. lia.
  - destruct (decoded_telegram_line (data_frame "1105" "FFFF") "15/15/255" "1.1.5"
                (sample_telegram_part (data_frame "1105" "FFFF")))
      as (_ & H0 & Hgap); [reflexivity | discriminate | discriminate | reflexivity|].
    apply H0. rewrite Hgap by (vm_compute; lia). reflexivity.
Defined.

(** X18. The line written for a telegram no group address was decoded for:
    the comment always follows without its opener, since the 23 characters
    before its semicolon leave no gap to fill, whatever the element and the
    physical address are. No comment opens on such a line. *)
Theorem undecoded_telegram_line (raw pa tp : string) :
  get_physical_address raw = Ok pa ->
  with_comment tp (make_comment "IGNORE (unbestimmt)" pa) =
    Ok ("    " ++ pad_telegram_part tp
        ++ ("GA: IGNORE (unbestimmt) ; QA: " ++ pa ++ " -->")
        ++ String newline EmptyString) /\
  contains "<!--" ("GA: IGNORE (unbestimmt) ; QA: " ++ pa ++ " -->") = false.
Proof.
  intros Hpa. pose proof (physical_address_no_lt _ _ Hpa) as Hlt.
  split; [now apply ignore_comment_loses_opener|].
  apply (contains_absent "<" "!--").
  rewrite !has_char_app, Hlt. reflexivity.
Qed.

(** A data frame whose destination bytes are no digits, with its source
    address decoded. *)
Lemma undecoded_telegram_line_witness :
  with_comment (sample_telegram_part frame_malformed)
               (make_comment "IGNORE (unbestimmt)" "1.1.5") =
    Ok ("    " ++ pad_telegram_part (sample_telegram_part frame_malformed)
        ++ "GA: IGNORE (unbestimmt) ; QA: 1.1.5 -->" ++ String newline EmptyString).
Proof.
  destruct (undecoded_telegram_line frame_malformed "1.1.5"
              (sample_telegram_part frame_malformed) eq_refl) as [H _].
  exact H.
Defined.
